(** * taiga.auth.api: the registration and login entry points

    A shallow embedding of [taiga/auth/api.py].  The module is glue code: it
    reads a [type] discriminator from the request payload, validates with
    serializers, calls the services of [taiga.auth.services] and shapes a
    response.  Everything the module imports is a collaborator; the
    collaborators are gathered in one record and every function of the module
    is written over it, in a state-and-exception monad that threads the
    collaborators' world and logs each call to one of them. *)

From Stdlib Require Import ZArith Lia.
From stdpp Require Import base option list strings gmap.

Set Warnings "-register-all".
Local Open Scope string_scope.
Local Open Scope list_scope.

(** ** Python values *)

(** The values a parsed request body holds. *)
Inductive value : Type :=
  | VNone
  | VBool (b : bool)
  | VInt (n : Z)
  | VStr (s : string)
  | VList (l : list value)
  | VDict (kv : list (string * value)).

(** Python's [bool(v)]. *)
Definition truthy (v : value) : bool :=
  match v with
  | VNone => false
  | VBool b => b
  | VInt n => negb (n =? 0)%Z
  | VStr s => match s with EmptyString => false | _ => true end
  | VList l => match l with [] => false | _ => true end
  | VDict kv => match kv with [] => false | _ => true end
  end.

(** [v == s] for a string literal [s]: only a [str] equals a [str]. *)
Definition eq_str (v : value) (s : string) : bool :=
  match v with
  | VStr t => String.eqb t s
  | _ => false
  end.

(** [d.get(key, None)] *)
Definition get (d : gmap string value) (key : string) : value :=
  default VNone (d !! key).

(** ** Exceptions *)

(** The exception classes the module raises or catches, with the two a
    collaborator or a dict access can add. *)
Inductive exn_class : Type :=
  | BadRequest
  | RequestValidationError
  | IntegrityError
  | PermissionDenied
  | KeyError
  | OtherException (name : string).

Record exn : Type := Exn { exn_cls : exn_class; detail : value }.

Definition is_IntegrityError (e : exn) : bool :=
  match exn_cls e with
  | IntegrityError => true
  | _ => false
  end.

(** Modelled from the spec: the status each error class is answered with
    (section 7, "Error handling design"); the classes themselves live in
    [taiga.base.exceptions], which this module only imports. *)
Definition status_code (c : exn_class) : option Z :=
  match c with
  | BadRequest | RequestValidationError | IntegrityError => Some 400%Z
  | PermissionDenied => Some 403%Z
  | KeyError | OtherException _ => None
  end.

(** [rest_framework.status] *)
Definition HTTP_200_OK : Z := 200.
Definition HTTP_201_CREATED : Z := 201.

Record Response : Type :=
  mkResponse { resp_data : gmap string value; resp_status : Z }.

(** ** Serializers *)

Inductive serializer_cls : Type :=
  | PublicRegisterSerializer
  | PrivateRegisterForExistingUserSerializer
  | PrivateRegisterForNewUserSerializer
  | _serializer.   (* the class local to [parse_register_type] *)

(** What the module reads of a serializer bound to its input. *)
Record serializer : Type :=
  mkSerializer {
    is_valid : bool;
    errors : value;
    data : gmap string value
  }.

Inductive RegisterTypeEnum : Type :=
  | new_user
  | existing_user.

(** [user_info] as returned by [github.me] *)
Record UserInfo : Type :=
  mkUserInfo {
    ui_username : value;
    ui_full_name : value;
    ui_id : value;
    ui_bio : value
  }.

Inductive outcome (A : Type) : Type :=
  | Return (a : A)
  | Raise (e : exn).
Arguments Return {A} a.
Arguments Raise {A} e.

Section Api.

(** The state the collaborators work on (database, sessions, remote
    services), the user objects of the service layer, and whatever a request
    carries besides its body. *)
Variables (World User Meta : Type).

Record Request : Type := mkRequest { DATA : gmap string value; META : Meta }.

(** ** Calls to collaborators *)

Inductive event : Type :=
  | Ev_check_permissions (action : string) (obj : value)
  | Ev_validate (cls : serializer_cls) (d : gmap string value)
  | Ev_public_register (kwargs : gmap string value)
  | Ev_private_register_for_existing_user (kwargs : gmap string value)
  | Ev_private_register_for_new_user (kwargs : gmap string value)
  | Ev_get_and_validate_user (username password : value)
  | Ev_github_me (code : value)
  | Ev_github_register (username email full_name github_id bio token : value)
  | Ev_make_auth_response_data (user : User).

Definition is_registration_service (ev : event) : bool :=
  match ev with
  | Ev_public_register _
  | Ev_private_register_for_existing_user _
  | Ev_private_register_for_new_user _ => true
  | _ => false
  end.

Definition is_login_service (ev : event) : bool :=
  match ev with
  | Ev_get_and_validate_user _ _
  | Ev_github_me _
  | Ev_github_register _ _ _ _ _ _ => true
  | _ => false
  end.

Definition is_validation (ev : event) : bool :=
  match ev with
  | Ev_validate _ _ => true
  | _ => false
  end.

(** A registration or login service function. *)
Definition is_service (ev : event) : bool :=
  is_registration_service ev || is_login_service ev.

(** Everything past the authorization check. *)
Definition is_processing (ev : event) : bool :=
  match ev with
  | Ev_check_permissions _ _ => false
  | _ => true
  end.

Record Collaborators : Type :=
  mkCollaborators {
    (* django.utils.translation, imported as [_] *)
    ugettext_lazy : string -> string;
    (* django.conf.settings *)
    PUBLIC_REGISTER_ENABLED : bool;
    (* viewsets.ViewSet with permission_classes = (AuthPermission,) *)
    check_permissions :
      Request -> string -> value -> World -> outcome unit * World;
    (* cls(data=data) for each serializer class *)
    serializer_of : serializer_cls -> gmap string value -> World -> serializer;
    (* taiga.auth.services *)
    public_register : gmap string value -> World -> outcome User * World;
    private_register_for_existing_user :
      gmap string value -> World -> outcome User * World;
    private_register_for_new_user :
      gmap string value -> World -> outcome User * World;
    github_register :
      value -> value -> value -> value -> value -> value ->
      World -> outcome User * World;
    make_auth_response_data :
      User -> World -> outcome (gmap string value) * World;
    (* taiga.users.services *)
    get_and_validate_user : value -> value -> World -> outcome User * World;
    (* taiga.base.connectors.github *)
    github_me : value -> World -> outcome (value * UserInfo) * World
  }.

(** ** The monad *)

Record state : Type := mkState { world : World; trace : list event }.

Definition Py (A : Type) : Type := state -> outcome A * state.

#[global] Instance Py_ret : MRet Py := fun A a s => (Return a, s).

#[global] Instance Py_bind : MBind Py := fun A B k m s =>
  match m s with
  | (Return a, s') => k a s'
  | (Raise e, s') => (Raise e, s')
  end.

Definition raise {A : Type} (e : exn) : Py A := fun s => (Raise e, s).

(** [try: body except <handles> as e: handler e] *)
Definition try_except {A : Type} (body : Py A)
    (handles : exn -> bool) (handler : exn -> Py A) : Py A := fun s =>
  match body s with
  | (Return a, s') => (Return a, s')
  | (Raise e, s') => if handles e then handler e s' else (Raise e, s')
  end.

(** A call to a collaborator: logged, then run on the world. *)
Definition call {A : Type} (ev : event)
    (f : World -> outcome A * World) : Py A := fun s =>
  let (r, w) := f (world s) in
  (r, {| world := w; trace := trace s ++ [ev] |}).

(** A serializer bound to its input; validation reads the world and leaves
    it as it is. *)
Definition instantiate (C : Collaborators) (cls : serializer_cls)
    (d : gmap string value) : Py serializer :=
  call (Ev_validate cls d) (fun w => (Return (serializer_of C cls d w), w)).

Section Code.

Variable C : Collaborators.

Definition _parse_data (d : gmap string value) (cls : serializer_cls)
    : Py (gmap string value) :=
  serializer ← instantiate C cls d;
  if negb (is_valid serializer)
  then raise (Exn RequestValidationError (errors serializer))
  else mret (data serializer).

Definition parse_public_register_data (d : gmap string value) :=
  _parse_data d PublicRegisterSerializer.

Definition parse_private_register_for_existing_user_data
    (d : gmap string value) :=
  _parse_data d PrivateRegisterForExistingUserSerializer.

Definition parse_private_register_for_new_user_data (d : gmap string value) :=
  _parse_data d PrivateRegisterForNewUserSerializer.

Definition parse_register_type (userdata : gmap string value)
    : Py RegisterTypeEnum :=
  instance ← instantiate C _serializer userdata;
  if negb (is_valid instance)
  then raise (Exn RequestValidationError (errors instance))
  else
    match data instance !! "existing" with
    | None => raise (Exn KeyError (VStr "existing"))
    | Some existing =>
        if truthy existing then mret existing_user else mret new_user
    end.

Definition respond (user : User) (status : Z) : Py Response :=
  d ← call (Ev_make_auth_response_data user) (make_auth_response_data C user);
  mret (mkResponse d status).

Definition _public_register (request : Request) : Py Response :=
  if negb (PUBLIC_REGISTER_ENABLED C)
  then raise (Exn BadRequest
                (VStr (ugettext_lazy C "Public register is disabled.")))
  else
    user ← try_except
      (d ← parse_public_register_data (DATA request);
       call (Ev_public_register d) (public_register C d))
      is_IntegrityError
      (fun e => raise (Exn BadRequest (detail e)));
    respond user HTTP_201_CREATED.

Definition _private_register (request : Request) : Py Response :=
  register_type ← parse_register_type (DATA request);
  user ←
    match register_type with
    | existing_user =>
        d ← parse_private_register_for_existing_user_data (DATA request);
        call (Ev_private_register_for_existing_user d)
             (private_register_for_existing_user C d)
    | new_user =>
        d ← parse_private_register_for_new_user_data (DATA request);
        call (Ev_private_register_for_new_user d)
             (private_register_for_new_user C d)
    end;
  respond user HTTP_201_CREATED.

Definition register (request : Request) : Py Response :=
  call (Ev_check_permissions "register" VNone)
       (check_permissions C request "register" VNone) ;;
  let type := get (DATA request) "type" in
  if eq_str type "public" then _public_register request
  else if eq_str type "private" then _private_register request
  else raise (Exn BadRequest (VStr (ugettext_lazy C "invalid register type"))).

Definition _login (request : Request) : Py Response :=
  let username := get (DATA request) "username" in
  let password := get (DATA request) "password" in
  user ← call (Ev_get_and_validate_user username password)
              (get_and_validate_user C username password);
  respond user HTTP_200_OK.

Definition _github_login (request : Request) : Py Response :=
  let code := get (DATA request) "code" in
  let token := get (DATA request) "token" in
  '(email, user_info) ← call (Ev_github_me code) (github_me C code);
  user ← call (Ev_github_register (ui_username user_info) email
                 (ui_full_name user_info) (ui_id user_info)
                 (ui_bio user_info) token)
              (github_register C (ui_username user_info) email
                 (ui_full_name user_info) (ui_id user_info)
                 (ui_bio user_info) token);
  respond user HTTP_200_OK.

(** Login view: /api/v1/auth *)
Definition create (request : Request) : Py Response :=
  call (Ev_check_permissions "create" VNone)
       (check_permissions C request "create" VNone) ;;
  let type := get (DATA request) "type" in
  if eq_str type "normal" then _login request
  else if eq_str type "github" then _github_login request
  else raise (Exn BadRequest (VStr (ugettext_lazy C "invalid login type"))).

End Code.

End Api.

Arguments mkRequest {Meta} DATA META.
Arguments DATA {Meta} r.
Arguments META {Meta} r.
Arguments Ev_check_permissions {User} action obj.
Arguments Ev_validate {User} cls d.
Arguments Ev_public_register {User} kwargs.
Arguments Ev_private_register_for_existing_user {User} kwargs.
Arguments Ev_private_register_for_new_user {User} kwargs.
Arguments Ev_get_and_validate_user {User} username password.
Arguments Ev_github_me {User} code.
Arguments Ev_github_register {User} username email full_name github_id bio token.
Arguments Ev_make_auth_response_data {User} user.
Arguments is_registration_service {User} ev.
Arguments is_login_service {User} ev.
Arguments is_validation {User} ev.
Arguments is_service {User} ev.
Arguments is_processing {User} ev.
Arguments mkCollaborators {World User Meta}.
Arguments ugettext_lazy {World User Meta} c msg.
Arguments PUBLIC_REGISTER_ENABLED {World User Meta} c.
Arguments check_permissions {World User Meta} c request action obj w.
Arguments serializer_of {World User Meta} c cls d w.
Arguments public_register {World User Meta} c kwargs w.
Arguments private_register_for_existing_user {World User Meta} c kwargs w.
Arguments private_register_for_new_user {World User Meta} c kwargs w.
Arguments github_register {World User Meta} c username email full_name
  github_id bio token w.
Arguments make_auth_response_data {World User Meta} c user w.
Arguments get_and_validate_user {World User Meta} c username password w.
Arguments github_me {World User Meta} c code w.
Arguments mkState {World User} world trace.
Arguments world {World User} s.
Arguments trace {World User} s.
Arguments raise {World User A} e s.
Arguments try_except {World User A} body handles handler s.
Arguments call {World User A} ev f s.
Arguments instantiate {World User Meta} C cls d s.
Arguments _parse_data {World User Meta} C d cls s.
Arguments parse_public_register_data {World User Meta} C d s.
Arguments parse_private_register_for_existing_user_data {World User Meta} C d s.
Arguments parse_private_register_for_new_user_data {World User Meta} C d s.
Arguments parse_register_type {World User Meta} C userdata s.
Arguments respond {World User Meta} C user status s.
Arguments _public_register {World User Meta} C request s.
Arguments _private_register {World User Meta} C request s.
Arguments register {World User Meta} C request s.
Arguments _login {World User Meta} C request s.
Arguments _github_login {World User Meta} C request s.
Arguments create {World User Meta} C request s.

(** ** What a run adds to the log *)

(** The calls [m] makes when run from [s]. *)
Definition calls {World User A : Type}
    (m : state World User -> outcome A * state World User)
    (s : state World User) : list (event User) :=
  drop (length (trace s)) (trace (m s).2).

(** The class of each of the two private registrations, its service and the
    call the service leaves in the log. *)
Definition private_cls (existing : bool) : serializer_cls :=
  if existing then PrivateRegisterForExistingUserSerializer
  else PrivateRegisterForNewUserSerializer.

Definition private_service {World User Meta : Type}
    (C : Collaborators World User Meta) (existing : bool)
    : gmap string value -> World -> outcome User * World :=
  if existing then private_register_for_existing_user C
  else private_register_for_new_user C.

Definition Ev_private_register {User : Type} (existing : bool)
    (kwargs : gmap string value) : event User :=
  if existing then Ev_private_register_for_existing_user kwargs
  else Ev_private_register_for_new_user kwargs.

(** ** The serializer of [parse_register_type]

    [rest_framework] is a library the module imports, not part of its
    source.  What follows is the [BooleanField] of its 2.x series, the one
    that offers [request.DATA] and [serializer.data], for a body parsed to a
    dict. *)

(** [BooleanField.from_native]: the eight spellings first, then [bool]. *)
Definition BooleanField_from_native (v : value) : bool :=
  match v with
  | VStr s =>
      if existsb (String.eqb s) ["true"; "t"; "True"; "1"] then true
      else if existsb (String.eqb s) ["false"; "f"; "False"; "0"] then false
      else truthy v
  | _ => truthy v
  end.

(** The class [_serializer], with its one field [existing =
    BooleanField()], bound to [d]: the field is required, and a value that is
    present is coerced, never refused. *)
Definition BooleanField_serializer (d : gmap string value) : serializer :=
  match d !! "existing" with
  | None =>
      mkSerializer false
        (VDict [("existing", VList [VStr "This field is required."])]) ∅
  | Some v =>
      mkSerializer true (VDict [])
        {[ "existing" := VBool (BooleanField_from_native v) ]}
  end.

(** [m] only appends to the log, and every call it appends satisfies [P]. *)
Definition logs {World User A : Type} (P : event User -> Prop)
    (m : state World User -> outcome A * state World User) : Prop :=
  forall s, exists l, trace (m s).2 = trace s ++ l /\ Forall P l.

(** * A small deployment

    Concrete collaborators to run the views on: the world counts the users
    created, a user is its name, a request carries nothing but its body.
    The serializers ask for a [username]; the inner serializer of
    [parse_register_type] is the one above; the name "taken" is already
    registered; the only password is "secret". *)

Definition demo_serializer_of (cls : serializer_cls) (d : gmap string value)
    (w : nat) : serializer :=
  match cls with
  | _serializer => BooleanField_serializer d
  | _ =>
      match d !! "username" with
      | Some (VStr u) => mkSerializer true VNone {[ "username" := VStr u ]}
      | _ =>
          mkSerializer false
            (VDict [("username", VList [VStr "This field is required."])]) ∅
      end
  end.

Definition demo_create_user (kwargs : gmap string value) (w : nat)
    : outcome string * nat :=
  match get kwargs "username" with
  | VStr u =>
      if String.eqb u "taken"
      then (Raise (Exn IntegrityError (VStr "User is already register.")), w)
      else (Return u, S w)
  | _ => (Raise (Exn (OtherException "TypeError") VNone), w)
  end.

Definition demo_user_info : UserInfo :=
  mkUserInfo (VStr "octocat") (VStr "The Octocat") (VInt 583231) VNone.

Definition demo (enabled allow : bool) : Collaborators nat string unit :=
  {| ugettext_lazy := fun msg => msg;
     PUBLIC_REGISTER_ENABLED := enabled;
     check_permissions := fun _ _ _ w =>
       if allow then (Return tt, w)
       else (Raise (Exn PermissionDenied (VStr "Permission denied")), w);
     serializer_of := demo_serializer_of;
     public_register := demo_create_user;
     private_register_for_existing_user := demo_create_user;
     private_register_for_new_user := demo_create_user;
     github_register := fun username _ _ _ _ _ w =>
       match username with
       | VStr u => (Return u, S w)
       | _ => (Raise (Exn (OtherException "TypeError") VNone), w)
       end;
     make_auth_response_data := fun user w =>
       (Return {[ "username" := VStr user ]}, w);
     get_and_validate_user := fun username password w =>
       match username with
       | VStr u =>
           if eq_str password "secret" then (Return u, w)
           else (Raise (Exn (OtherException "WrongArguments")
                          (VStr "Username or password does not matches user.")),
                 w)
       | _ => (Raise (Exn (OtherException "WrongArguments") VNone), w)
       end;
     github_me := fun code w =>
       (Return (VStr "octocat@github.com", demo_user_info), w) |}.

Definition demo_request (body : list (string * value)) : Request unit :=
  mkRequest (list_to_map body) tt.

Definition demo_start : state nat string := mkState 0 [].

(** ** Further vocabulary for the log *)

Definition is_make_auth_response_data {User : Type} (ev : event User) : bool :=
  match ev with
  | Ev_make_auth_response_data _ => true
  | _ => false
  end.

(** The calls of a login that look a user up or create one. *)
Definition is_user_lookup {User : Type} (ev : event User) : bool :=
  match ev with
  | Ev_get_and_validate_user _ _
  | Ev_github_register _ _ _ _ _ _ => true
  | _ => false
  end.

(** [m] only appends to the log, and at most [n] of the calls it appends
    satisfy [f]. *)
Definition at_most {World User A : Type} (n : nat) (f : event User -> bool)
    (m : state World User -> outcome A * state World User) : Prop :=
  forall s, exists l,
    trace (m s).2 = trace s ++ l /\
    length (filter (fun ev => f ev = true) l) <= n.

(** The same collaborators under another value of
    [settings.PUBLIC_REGISTER_ENABLED]. *)
Definition with_PUBLIC_REGISTER_ENABLED {World User Meta : Type}
    (C : Collaborators World User Meta) (enabled : bool)
    : Collaborators World User Meta :=
  {| ugettext_lazy := ugettext_lazy C;
     PUBLIC_REGISTER_ENABLED := enabled;
     check_permissions := check_permissions C;
     serializer_of := serializer_of C;
     public_register := public_register C;
     private_register_for_existing_user := private_register_for_existing_user C;
     private_register_for_new_user := private_register_for_new_user C;
     github_register := github_register C;
     make_auth_response_data := make_auth_response_data C;
     get_and_validate_user := get_and_validate_user C;
     github_me := github_me C |}.

(** What a response of [register] rests on: the request was let in, a
    registration service returned [user] on one of the two paths, and the
    payload is what [make_auth_response_data] returned for [user]. *)
Definition registered_through {World User Meta : Type}
    (C : Collaborators World User Meta) (request : Request Meta)
    (s : state World User) (resp : Response) (s' : state World User) : Prop :=
  let d := DATA request in
  exists (w : World) (user : User) (w1 : World),
    check_permissions C request "register" VNone (world s) = (Return tt, w) /\
    make_auth_response_data C user w1 = (Return (resp_data resp), world s') /\
    resp_status resp = HTTP_201_CREATED /\
    ((get d "type" = VStr "public" /\
      PUBLIC_REGISTER_ENABLED C = true /\
      is_valid (serializer_of C PublicRegisterSerializer d w) = true /\
      public_register C
        (data (serializer_of C PublicRegisterSerializer d w)) w
        = (Return user, w1)) \/
     (get d "type" = VStr "private" /\
      is_valid (serializer_of C _serializer d w) = true /\
      exists existing : value,
        data (serializer_of C _serializer d w) !! "existing" = Some existing /\
        let b := truthy existing in
        is_valid (serializer_of C (private_cls b) d w) = true /\
        private_service C b (data (serializer_of C (private_cls b) d w)) w
          = (Return user, w1))).

(** ** A second deployment

    Like the first, with the serializers, the registration services, the
    response builder and the GitHub connector left open, to run the views on
    collaborators that fail or coerce. *)
Definition demo_with
    (ser : serializer_cls -> gmap string value -> nat -> serializer)
    (svc : gmap string value -> nat -> outcome string * nat)
    (auth : string -> nat -> outcome (gmap string value) * nat)
    (me : value -> nat -> outcome (value * UserInfo) * nat)
    : Collaborators nat string unit :=
  {| ugettext_lazy := fun msg => msg;
     PUBLIC_REGISTER_ENABLED := true;
     check_permissions := fun _ _ _ w => (Return tt, w);
     serializer_of := ser;
     public_register := svc;
     private_register_for_existing_user := svc;
     private_register_for_new_user := svc;
     github_register := fun username _ _ _ _ _ w =>
       match username with
       | VStr u => (Return u, S w)
       | _ => (Raise (Exn (OtherException "TypeError") VNone), w)
       end;
     make_auth_response_data := auth;
     get_and_validate_user := fun username password w =>
       match username with
       | VStr u => (Return u, w)
       | _ => (Raise (Exn (OtherException "WrongArguments") VNone), w)
       end;
     github_me := me |}.

(** A serializer that accepts every payload as it is. *)
Definition demo_pass_through (cls : serializer_cls) (d : gmap string value)
    (w : nat) : serializer :=
  mkSerializer true VNone d.

Definition demo_auth (user : string) (w : nat)
    : outcome (gmap string value) * nat :=
  (Return {[ "username" := VStr user ]}, w).

Definition demo_me (code : value) (w : nat)
    : outcome (value * UserInfo) * nat :=
  (Return (VStr "octocat@github.com", demo_user_info), w).

(** * Properties *)

Lemma eq_str_true (v : value) (s : string) :
  eq_str v s = true <-> v = VStr s.
Proof.
  destruct v; simpl; try (split; [discriminate | congruence]).
  rewrite String.eqb_eq. split; congruence.
Qed.

Lemma eq_str_false (v : value) (s : string) :
  eq_str v s = false <-> v <> VStr s.
Proof.
  rewrite <- eq_str_true. destruct (eq_str v s); split; congruence.
Qed.

Lemma eq_str_refl (s : string) : eq_str (VStr s) s = true.
Proof. apply eq_str_true. reflexivity. Qed.

Section Properties.

Context {World User Meta : Type} (C : Collaborators World User Meta).

Implicit Types (s : state World User) (request : Request Meta)
  (w : World) (e : exn) (d : gmap string value).

Lemma calls_app {A : Type} (m : Py World User A) s (l : list (event User)) :
  trace (m s).2 = trace s ++ l -> calls m s = l.
Proof.
  intros H. unfold calls. rewrite H. apply drop_app_length.
Qed.

(** One step of a run: a call that returns, a call that raises. *)
Lemma call_Return {A B : Type} ev (f : World -> outcome A * World)
    (k : A -> Py World User B) s a w :
  f (world s) = (Return a, w) ->
  (call ev f ≫= k) s = k a (mkState w (trace s ++ [ev])).
Proof.
  intros H. unfold mbind, Py_bind, call. rewrite H. reflexivity.
Qed.

Lemma call_Raise {A B : Type} ev (f : World -> outcome A * World)
    (k : A -> Py World User B) s e w :
  f (world s) = (Raise e, w) ->
  (call ev f ≫= k) s = (Raise e, mkState w (trace s ++ [ev])).
Proof.
  intros H. unfold mbind, Py_bind, call. rewrite H. reflexivity.
Qed.

Lemma parse_data_valid d cls s :
  is_valid (serializer_of C cls d (world s)) = true ->
  _parse_data C d cls s =
    (Return (data (serializer_of C cls d (world s))),
     mkState (world s) (trace s ++ [Ev_validate cls d])).
Proof.
  intros H. unfold _parse_data, instantiate.
  erewrite call_Return by reflexivity. simpl. rewrite H. reflexivity.
Qed.

Lemma parse_data_invalid d cls s :
  is_valid (serializer_of C cls d (world s)) = false ->
  _parse_data C d cls s =
    (Raise (Exn RequestValidationError
              (errors (serializer_of C cls d (world s)))),
     mkState (world s) (trace s ++ [Ev_validate cls d])).
Proof.
  intros H. unfold _parse_data, instantiate.
  erewrite call_Return by reflexivity. simpl. rewrite H. reflexivity.
Qed.

Lemma parse_register_type_invalid d s :
  is_valid (serializer_of C _serializer d (world s)) = false ->
  parse_register_type C d s =
    (Raise (Exn RequestValidationError
              (errors (serializer_of C _serializer d (world s)))),
     mkState (world s) (trace s ++ [Ev_validate _serializer d])).
Proof.
  intros H. unfold parse_register_type, instantiate.
  erewrite call_Return by reflexivity. simpl. rewrite H. reflexivity.
Qed.

Lemma parse_register_type_valid d s (existing : value) :
  is_valid (serializer_of C _serializer d (world s)) = true ->
  data (serializer_of C _serializer d (world s)) !! "existing"
    = Some existing ->
  parse_register_type C d s =
    (Return (if truthy existing then existing_user else new_user),
     mkState (world s) (trace s ++ [Ev_validate _serializer d])).
Proof.
  intros H1 H2. unfold parse_register_type, instantiate.
  erewrite call_Return by reflexivity. simpl. rewrite H1, H2. simpl.
  destruct (truthy existing); reflexivity.
Qed.

(** The two views after the authorization check has let the request in. *)
Lemma register_allowed request s w :
  check_permissions C request "register" VNone (world s) = (Return tt, w) ->
  register C request s =
    (let type := get (DATA request) "type" in
     if eq_str type "public" then _public_register C request
     else if eq_str type "private" then _private_register C request
     else raise (Exn BadRequest
                   (VStr (ugettext_lazy C "invalid register type"))))
      (mkState w (trace s ++ [Ev_check_permissions "register" VNone])).
Proof.
  intros H. unfold register. erewrite call_Return by exact H. reflexivity.
Qed.

Lemma create_allowed request s w :
  check_permissions C request "create" VNone (world s) = (Return tt, w) ->
  create C request s =
    (let type := get (DATA request) "type" in
     if eq_str type "normal" then _login C request
     else if eq_str type "github" then _github_login C request
     else raise (Exn BadRequest
                   (VStr (ugettext_lazy C "invalid login type"))))
      (mkState w (trace s ++ [Ev_check_permissions "create" VNone])).
Proof.
  intros H. unfold create. erewrite call_Return by exact H. reflexivity.
Qed.

Lemma register_denied request s e w :
  check_permissions C request "register" VNone (world s) = (Raise e, w) ->
  register C request s =
    (Raise e, mkState w (trace s ++ [Ev_check_permissions "register" VNone])).
Proof.
  intros H. unfold register. erewrite call_Raise by exact H. reflexivity.
Qed.

Lemma create_denied request s e w :
  check_permissions C request "create" VNone (world s) = (Raise e, w) ->
  create C request s =
    (Raise e, mkState w (trace s ++ [Ev_check_permissions "create" VNone])).
Proof.
  intros H. unfold create. erewrite call_Raise by exact H. reflexivity.
Qed.

(** [respond]: the response is built from what [make_auth_response_data]
    returns for the user. *)
Lemma respond_Return (user : User) (status : Z) s payload w :
  make_auth_response_data C user (world s) = (Return payload, w) ->
  respond C user status s =
    (Return (mkResponse payload status),
     mkState w (trace s ++ [Ev_make_auth_response_data user])).
Proof.
  intros H. unfold respond. erewrite call_Return by exact H. reflexivity.
Qed.

Lemma respond_trace (user : User) (status : Z) s :
  trace (respond C user status s).2
    = trace s ++ [Ev_make_auth_response_data user].
Proof.
  unfold respond.
  destruct (make_auth_response_data C user (world s)) as [[payload | e] w] eqn:E.
  - erewrite call_Return by exact E. reflexivity.
  - erewrite call_Raise by exact E. reflexivity.
Qed.

Lemma respond_status (user : User) (status : Z) s (resp : Response) s' :
  respond C user status s = (Return resp, s') -> resp_status resp = status.
Proof.
  unfold respond.
  destruct (make_auth_response_data C user (world s)) as [[payload | e] w] eqn:E.
  - erewrite call_Return by exact E. intros [= <- _]. reflexivity.
  - erewrite call_Raise by exact E. discriminate.
Qed.

(** ** Dispatch on [type] *)

(** C1.  A request whose [type] is neither "public" nor "private" makes
    [register] call nothing but the authorization check, and once that check
    lets the request in, [register] raises BadRequest with the message
    "invalid register type"; likewise [create] for a [type] that is neither
    "normal" nor "github", with "invalid login type".  No registration or
    login service is called. *)
Theorem invalid_type_is_bad_request request s :
  (get (DATA request) "type" <> VStr "public" ->
   get (DATA request) "type" <> VStr "private" ->
   calls (register C request) s = [Ev_check_permissions "register" VNone] /\
   filter (fun ev => is_service ev = true) (calls (register C request) s) = [] /\
   forall w,
     check_permissions C request "register" VNone (world s) = (Return tt, w) ->
     register C request s =
       (Raise (Exn BadRequest (VStr (ugettext_lazy C "invalid register type"))),
        mkState w (trace s ++ [Ev_check_permissions "register" VNone]))) /\
  (get (DATA request) "type" <> VStr "normal" ->
   get (DATA request) "type" <> VStr "github" ->
   calls (create C request) s = [Ev_check_permissions "create" VNone] /\
   filter (fun ev => is_service ev = true) (calls (create C request) s) = [] /\
   forall w,
     check_permissions C request "create" VNone (world s) = (Return tt, w) ->
     create C request s =
       (Raise (Exn BadRequest (VStr (ugettext_lazy C "invalid login type"))),
        mkState w (trace s ++ [Ev_check_permissions "create" VNone]))).
Proof.
  split; intros H1 H2; apply eq_str_false in H1, H2.
  - assert (Hrun : forall w,
      check_permissions C request "register" VNone (world s) = (Return tt, w) ->
      register C request s =
        (Raise (Exn BadRequest
                  (VStr (ugettext_lazy C "invalid register type"))),
         mkState w (trace s ++ [Ev_check_permissions "register" VNone]))).
    { intros w Hw. rewrite (register_allowed _ _ _ Hw). simpl.
      rewrite H1, H2. reflexivity. }
    assert (Hcalls :
      calls (register C request) s = [Ev_check_permissions "register" VNone]).
    { apply calls_app.
      destruct (check_permissions C request "register" VNone (world s))
        as [[[] | e] w] eqn:E.
      - rewrite (Hrun _ eq_refl). reflexivity.
      - rewrite (register_denied _ _ _ _ E). reflexivity. }
    rewrite Hcalls. auto.
  - assert (Hrun : forall w,
      check_permissions C request "create" VNone (world s) = (Return tt, w) ->
      create C request s =
        (Raise (Exn BadRequest (VStr (ugettext_lazy C "invalid login type"))),
         mkState w (trace s ++ [Ev_check_permissions "create" VNone]))).
    { intros w Hw. rewrite (create_allowed _ _ _ Hw). simpl.
      rewrite H1, H2. reflexivity. }
    assert (Hcalls :
      calls (create C request) s = [Ev_check_permissions "create" VNone]).
    { apply calls_app.
      destruct (check_permissions C request "create" VNone (world s))
        as [[[] | e] w] eqn:E.
      - rewrite (Hrun _ eq_refl). reflexivity.
      - rewrite (create_denied _ _ _ _ E). reflexivity. }
    rewrite Hcalls. auto.
Qed.

(** ** Public registration *)

(** C2.  With [settings.PUBLIC_REGISTER_ENABLED] false, a request of type
    "public" that the authorization check lets in is answered with
    BadRequest "Public register is disabled." (status 400), whatever else the
    payload holds: no serializer is run and no registration service is
    called. *)
Theorem public_register_disabled request s w :
  get (DATA request) "type" = VStr "public" ->
  PUBLIC_REGISTER_ENABLED C = false ->
  check_permissions C request "register" VNone (world s) = (Return tt, w) ->
  register C request s =
    (Raise (Exn BadRequest
              (VStr (ugettext_lazy C "Public register is disabled."))),
     mkState w (trace s ++ [Ev_check_permissions "register" VNone])) /\
  status_code BadRequest = Some 400%Z /\
  filter (fun ev => is_validation ev = true) (calls (register C request) s) = [] /\
  filter (fun ev => is_registration_service ev = true)
         (calls (register C request) s) = [].
Proof.
  intros Hty Hoff Hperm.
  assert (Hrun : register C request s =
    (Raise (Exn BadRequest
              (VStr (ugettext_lazy C "Public register is disabled."))),
     mkState w (trace s ++ [Ev_check_permissions "register" VNone]))).
  { rewrite (register_allowed _ _ _ Hperm). simpl. rewrite Hty. simpl.
    unfold _public_register. rewrite Hoff. reflexivity. }
  assert (Hcalls :
    calls (register C request) s = [Ev_check_permissions "register" VNone]).
  { apply calls_app. rewrite Hrun. reflexivity. }
  rewrite Hcalls. auto.
Qed.

(** C5.  When public registration is enabled, the payload passes
    PublicRegisterSerializer and [public_register] raises IntegrityError,
    [register] raises BadRequest with the detail of that error (status
    400). *)
Theorem public_register_integrity_error request s w w' (dt : value) :
  get (DATA request) "type" = VStr "public" ->
  PUBLIC_REGISTER_ENABLED C = true ->
  check_permissions C request "register" VNone (world s) = (Return tt, w) ->
  is_valid (serializer_of C PublicRegisterSerializer (DATA request) w) = true ->
  public_register C
    (data (serializer_of C PublicRegisterSerializer (DATA request) w)) w
    = (Raise (Exn IntegrityError dt), w') ->
  register C request s =
    (Raise (Exn BadRequest dt),
     mkState w'
       (trace s ++
        [Ev_check_permissions "register" VNone;
         Ev_validate PublicRegisterSerializer (DATA request);
         Ev_public_register
           (data (serializer_of C PublicRegisterSerializer
                    (DATA request) w))])) /\
  status_code BadRequest = Some 400%Z.
Proof.
  intros Hty Hon Hperm Hvalid Hsvc. split; [| reflexivity].
  rewrite (register_allowed _ _ _ Hperm). simpl. rewrite Hty. simpl.
  unfold _public_register. rewrite Hon. simpl.
  unfold mbind at 1, Py_bind at 1, try_except, parse_public_register_data.
  unfold mbind at 1, Py_bind at 1.
  rewrite parse_data_valid by exact Hvalid. simpl.
  unfold call. simpl. rewrite Hsvc. simpl.
  rewrite <- !app_assoc. reflexivity.
Qed.

(** ** Private registration *)

(** [_private_register] once the inner serializer has accepted the payload:
    the second serializer is the one [existing] selects. *)
Lemma private_register_rejected request s (existing : value) :
  let d := DATA request in
  let cls := private_cls (truthy existing) in
  is_valid (serializer_of C _serializer d (world s)) = true ->
  data (serializer_of C _serializer d (world s)) !! "existing"
    = Some existing ->
  is_valid (serializer_of C cls d (world s)) = false ->
  _private_register C request s =
    (Raise (Exn RequestValidationError
              (errors (serializer_of C cls d (world s)))),
     mkState (world s)
       (trace s ++ [Ev_validate _serializer d; Ev_validate cls d])).
Proof.
  cbv zeta. intros H1 H2 H3. unfold _private_register.
  unfold mbind at 1, Py_bind at 1.
  rewrite (parse_register_type_valid _ _ _ H1 H2).
  destruct (truthy existing); simpl in *;
    unfold mbind at 1, Py_bind at 1, mbind at 1, Py_bind at 1;
    unfold parse_private_register_for_existing_user_data,
      parse_private_register_for_new_user_data;
    rewrite parse_data_invalid by exact H3; simpl;
    rewrite <- !app_assoc; reflexivity.
Qed.

Lemma private_register_accepted request s (existing : value) :
  let d := DATA request in
  let b := truthy existing in
  let ser := serializer_of C (private_cls b) d (world s) in
  let log w :=
    mkState w
      (trace s ++ [Ev_validate _serializer d; Ev_validate (private_cls b) d;
                   Ev_private_register b (data ser)]) in
  is_valid (serializer_of C _serializer d (world s)) = true ->
  data (serializer_of C _serializer d (world s)) !! "existing"
    = Some existing ->
  is_valid ser = true ->
  _private_register C request s =
    match private_service C b (data ser) (world s) with
    | (Return user, w) => respond C user HTTP_201_CREATED (log w)
    | (Raise e, w) => (Raise e, log w)
    end.
Proof.
  cbv zeta. intros H1 H2 H3. unfold _private_register.
  unfold mbind at 1, Py_bind at 1.
  rewrite (parse_register_type_valid _ _ _ H1 H2).
  destruct (truthy existing); simpl in *;
    unfold mbind at 1, Py_bind at 1, mbind at 1, Py_bind at 1;
    unfold parse_private_register_for_existing_user_data,
      parse_private_register_for_new_user_data;
    rewrite parse_data_valid by exact H3; simpl; unfold call; simpl;
    rewrite <- !app_assoc; simpl.
  - destruct (private_register_for_existing_user C _ _) as [[user | e] w];
      reflexivity.
  - destruct (private_register_for_new_user C _ _) as [[user | e] w];
      reflexivity.
Qed.

(** A private registration from start to end, once it is let in and the
    inner serializer has returned [existing]: the serializer of the selected
    path is run on the payload, that path's service is applied to the
    serializer's data in the world the check left, and the response is built
    from the user the service returns. *)
Lemma private_register_run request s w (existing : value) :
  let d := DATA request in
  let b := truthy existing in
  let ser := serializer_of C (private_cls b) d w in
  let log :=
    trace s ++ [Ev_check_permissions "register" VNone;
                Ev_validate _serializer d; Ev_validate (private_cls b) d] in
  get d "type" = VStr "private" ->
  check_permissions C request "register" VNone (world s) = (Return tt, w) ->
  is_valid (serializer_of C _serializer d w) = true ->
  data (serializer_of C _serializer d w) !! "existing" = Some existing ->
  register C request s =
    (if is_valid ser then
       match private_service C b (data ser) w with
       | (Return user, w1) =>
           match make_auth_response_data C user w1 with
           | (Return payload, w2) =>
               (Return (mkResponse payload HTTP_201_CREATED),
                mkState w2
                  (log ++ [Ev_private_register b (data ser);
                           Ev_make_auth_response_data user]))
           | (Raise e, w2) =>
               (Raise e,
                mkState w2
                  (log ++ [Ev_private_register b (data ser);
                           Ev_make_auth_response_data user]))
           end
       | (Raise e, w1) =>
           (Raise e, mkState w1 (log ++ [Ev_private_register b (data ser)]))
       end
     else
       (Raise (Exn RequestValidationError (errors ser)), mkState w log)).
Proof.
  cbv zeta. intros Hty Hperm H1 H2.
  rewrite (register_allowed _ _ _ Hperm). simpl. rewrite Hty. simpl.
  set (s1 := mkState w (trace s ++ [Ev_check_permissions "register" VNone])).
  destruct (is_valid (serializer_of C (private_cls (truthy existing))
                        (DATA request) w)) eqn:H3.
  - pose proof (private_register_accepted request s1 existing H1 H2 H3) as Hp.
    simpl in Hp. rewrite Hp.
    destruct (private_service C (truthy existing) _ w) as [[user | e] w1].
    + unfold respond, mbind, Py_bind, call. simpl.
      destruct (make_auth_response_data C user w1) as [[payload | e] w2];
        simpl; rewrite <- !app_assoc; reflexivity.
    + rewrite <- !app_assoc. reflexivity.
  - rewrite (private_register_rejected request s1 existing H1 H2 H3).
    simpl. rewrite <- !app_assoc. reflexivity.
Qed.

(** The serializers and the registration services in the log of such a
    run. *)
Lemma private_register_calls request s w (existing : value) :
  let d := DATA request in
  let b := truthy existing in
  let ser := serializer_of C (private_cls b) d w in
  get d "type" = VStr "private" ->
  check_permissions C request "register" VNone (world s) = (Return tt, w) ->
  is_valid (serializer_of C _serializer d w) = true ->
  data (serializer_of C _serializer d w) !! "existing" = Some existing ->
  filter (fun ev => is_validation ev = true) (calls (register C request) s)
    = [Ev_validate _serializer d; Ev_validate (private_cls b) d] /\
  filter (fun ev => is_registration_service ev = true)
         (calls (register C request) s)
    = (if is_valid ser then [Ev_private_register b (data ser)] else []).
Proof.
  cbv zeta. intros Hty Hperm H1 H2.
  pose proof (private_register_run request s w existing Hty Hperm H1 H2)
    as Hrun.
  cbv zeta in Hrun.
  destruct (is_valid (serializer_of C (private_cls (truthy existing))
                        (DATA request) w)).
  - destruct (private_service C (truthy existing) _ w) as [[user | e] w1].
    + destruct (make_auth_response_data C user w1) as [[payload | e] w2];
        (erewrite calls_app;
          [| rewrite Hrun; simpl; rewrite <- !app_assoc; reflexivity]);
        destruct (truthy existing); split; reflexivity.
    + erewrite calls_app;
        [| rewrite Hrun; simpl; rewrite <- !app_assoc; reflexivity].
      destruct (truthy existing); split; reflexivity.
  - erewrite calls_app; [| rewrite Hrun; reflexivity].
    split; reflexivity.
Qed.

(** C3.  A private registration whose [existing] field the inner serializer
    reads as the boolean [b] validates against the serializer of the path
    [b] selects (existing user for true, new user for false) and, when that
    serializer accepts the payload, applies that path's service, and no
    other, to the serializer's data: the outcome of [register], the world it
    leaves and its log are those of that one service call followed by
    [make_auth_response_data]; the other path's serializer and service
    appear nowhere in the log. *)
Theorem private_register_routes_on_existing request s w (b : bool) :
  let d := DATA request in
  let ser := serializer_of C (private_cls b) d w in
  let log :=
    trace s ++ [Ev_check_permissions "register" VNone;
                Ev_validate _serializer d; Ev_validate (private_cls b) d] in
  get d "type" = VStr "private" ->
  check_permissions C request "register" VNone (world s) = (Return tt, w) ->
  is_valid (serializer_of C _serializer d w) = true ->
  data (serializer_of C _serializer d w) !! "existing" = Some (VBool b) ->
  register C request s =
    (if is_valid ser then
       match private_service C b (data ser) w with
       | (Return user, w1) =>
           match make_auth_response_data C user w1 with
           | (Return payload, w2) =>
               (Return (mkResponse payload HTTP_201_CREATED),
                mkState w2
                  (log ++ [Ev_private_register b (data ser);
                           Ev_make_auth_response_data user]))
           | (Raise e, w2) =>
               (Raise e,
                mkState w2
                  (log ++ [Ev_private_register b (data ser);
                           Ev_make_auth_response_data user]))
           end
       | (Raise e, w1) =>
           (Raise e, mkState w1 (log ++ [Ev_private_register b (data ser)]))
       end
     else
       (Raise (Exn RequestValidationError (errors ser)), mkState w log)) /\
  filter (fun ev => is_validation ev = true) (calls (register C request) s)
    = [Ev_validate _serializer d; Ev_validate (private_cls b) d] /\
  filter (fun ev => is_registration_service ev = true)
         (calls (register C request) s)
    = (if is_valid ser then [Ev_private_register b (data ser)] else []).
Proof.
  cbv zeta. intros Hty Hperm H1 H2. split.
  - exact (private_register_run request s w (VBool b) Hty Hperm H1 H2).
  - exact (private_register_calls request s w (VBool b) Hty Hperm H1 H2).
Qed.

(** C4, as the code has it.  A private registration that the inner
    serializer rejects is answered with RequestValidationError carrying that
    serializer's errors, with no second serializer run and no registration
    service called.  With rest_framework's BooleanField this is the case of
    a payload without [existing], answered with "This field is required.";
    an [existing] that is present is coerced to a boolean, whatever it is,
    and is never the reason of a validation error. *)
Theorem private_register_needs_existing request s w :
  let d := DATA request in
  let log :=
    trace s ++ [Ev_check_permissions "register" VNone;
                Ev_validate _serializer d] in
  get d "type" = VStr "private" ->
  check_permissions C request "register" VNone (world s) = (Return tt, w) ->
  (is_valid (serializer_of C _serializer d w) = false ->
   register C request s =
     (Raise (Exn RequestValidationError
               (errors (serializer_of C _serializer d w))),
      mkState w log) /\
   filter (fun ev => is_registration_service ev = true)
          (calls (register C request) s) = []) /\
  (serializer_of C _serializer d w = BooleanField_serializer d ->
   d !! "existing" = None ->
   register C request s =
     (Raise (Exn RequestValidationError
               (VDict [("existing", VList [VStr "This field is required."])])),
      mkState w log) /\
   filter (fun ev => is_registration_service ev = true)
          (calls (register C request) s) = []) /\
  (serializer_of C _serializer d w = BooleanField_serializer d ->
   forall v : value,
     d !! "existing" = Some v ->
     filter (fun ev => is_validation ev = true) (calls (register C request) s)
       = [Ev_validate _serializer d;
          Ev_validate (private_cls (BooleanField_from_native v)) d]).
Proof.
  cbv zeta. intros Hty Hperm.
  assert (Hrej : is_valid (serializer_of C _serializer (DATA request) w)
                   = false ->
    register C request s =
      (Raise (Exn RequestValidationError
                (errors (serializer_of C _serializer (DATA request) w))),
       mkState w (trace s ++ [Ev_check_permissions "register" VNone;
                              Ev_validate _serializer (DATA request)])) /\
    filter (fun ev => is_registration_service ev = true)
           (calls (register C request) s) = []).
  { intros Hinv.
    assert (Hrun : register C request s =
      (Raise (Exn RequestValidationError
                (errors (serializer_of C _serializer (DATA request) w))),
       mkState w (trace s ++ [Ev_check_permissions "register" VNone;
                              Ev_validate _serializer (DATA request)]))).
    { rewrite (register_allowed _ _ _ Hperm). simpl. rewrite Hty. simpl.
      unfold _private_register. unfold mbind at 1, Py_bind at 1.
      rewrite parse_register_type_invalid by exact Hinv.
      simpl. rewrite <- !app_assoc. reflexivity. }
    split; [exact Hrun |].
    erewrite calls_app by (rewrite Hrun; reflexivity). reflexivity. }
  split; [exact Hrej | split].
  - intros Hser Hmiss.
    assert (Hinv : is_valid (serializer_of C _serializer (DATA request) w)
                     = false).
    { rewrite Hser. unfold BooleanField_serializer. rewrite Hmiss.
      reflexivity. }
    destruct (Hrej Hinv) as [Hrun Hnone]. split; [| exact Hnone].
    rewrite Hrun, Hser. unfold BooleanField_serializer. rewrite Hmiss.
    reflexivity.
  - intros Hser v Hv.
    assert (H1 : is_valid (serializer_of C _serializer (DATA request) w)
                   = true).
    { rewrite Hser. unfold BooleanField_serializer. rewrite Hv.
      reflexivity. }
    assert (H2 : data (serializer_of C _serializer (DATA request) w)
                   !! "existing" = Some (VBool (BooleanField_from_native v))).
    { rewrite Hser. unfold BooleanField_serializer. rewrite Hv. simpl.
      apply lookup_singleton_eq. }
    exact (proj1 (private_register_calls request s w
                    (VBool (BooleanField_from_native v)) Hty Hperm H1 H2)).
Qed.

(** C9.  An IntegrityError raised by either private registration service
    leaves [register] as it was raised: the private path has no handler that
    would turn it into BadRequest. *)
Theorem private_register_integrity_error_propagates
    request s w w' (b : bool) (dt : value) :
  let d := DATA request in
  let ser := serializer_of C (private_cls b) d w in
  get d "type" = VStr "private" ->
  check_permissions C request "register" VNone (world s) = (Return tt, w) ->
  is_valid (serializer_of C _serializer d w) = true ->
  data (serializer_of C _serializer d w) !! "existing" = Some (VBool b) ->
  is_valid ser = true ->
  private_service C b (data ser) w = (Raise (Exn IntegrityError dt), w') ->
  register C request s =
    (Raise (Exn IntegrityError dt),
     mkState w'
       (trace s ++
        [Ev_check_permissions "register" VNone; Ev_validate _serializer d;
         Ev_validate (private_cls b) d; Ev_private_register b (data ser)])).
Proof.
  intros d ser Hty Hperm H1 H2 H3 Hsvc.
  rewrite (register_allowed _ _ _ Hperm). simpl. fold d. rewrite Hty. simpl.
  pose proof (private_register_accepted request
    (mkState w (trace s ++ [Ev_check_permissions "register" VNone]))
    (VBool b) H1 H2 H3) as Hp.
  simpl in Hp. fold d ser in Hp. rewrite Hsvc in Hp. rewrite Hp.
  rewrite <- !app_assoc. reflexivity.
Qed.

(** ** Successful runs *)

Lemma bind_Return_inv {A B : Type} (m : Py World User A)
    (k : A -> Py World User B) s (b : B) s' :
  (m ≫= k) s = (Return b, s') ->
  exists a s1, m s = (Return a, s1) /\ k a s1 = (Return b, s').
Proof.
  unfold mbind, Py_bind. destruct (m s) as [[a | e] s1]; [eauto | discriminate].
Qed.

Lemma call_Return_inv {A : Type} ev (f : World -> outcome A * World)
    s (a : A) s' :
  call ev f s = (Return a, s') ->
  f (world s) = (Return a, world s') /\ trace s' = trace s ++ [ev].
Proof.
  unfold call. destruct (f (world s)) as [r w]. intros [= -> <-]. auto.
Qed.

Lemma respond_Return_inv (user : User) (status : Z) s (resp : Response) s' :
  respond C user status s = (Return resp, s') ->
  resp_status resp = status /\
  make_auth_response_data C user (world s) = (Return (resp_data resp), world s').
Proof.
  intros H. split; [exact (respond_status _ _ _ _ _ H) |].
  unfold respond in H. apply bind_Return_inv in H as (payload & s1 & H1 & H2).
  apply call_Return_inv in H1 as [H1 _].
  injection H2 as <- <-. exact H1.
Qed.

(** C6.  A registration that is let in, validates and whose service returns
    a user is answered with status 201 and the payload
    [make_auth_response_data] returns for that user, on the public path and
    on both private paths; and whenever [register] returns a response at all,
    its status is 201 and its payload is what [make_auth_response_data]
    returned for some user. *)
Theorem register_success_is_201 request s :
  let d := DATA request in
  (forall w (user : User) w1 payload w2,
     let ser := serializer_of C PublicRegisterSerializer d w in
     check_permissions C request "register" VNone (world s) = (Return tt, w) ->
     get d "type" = VStr "public" ->
     PUBLIC_REGISTER_ENABLED C = true ->
     is_valid ser = true ->
     public_register C (data ser) w = (Return user, w1) ->
     make_auth_response_data C user w1 = (Return payload, w2) ->
     register C request s =
       (Return (mkResponse payload HTTP_201_CREATED),
        mkState w2
          (trace s ++
           [Ev_check_permissions "register" VNone;
            Ev_validate PublicRegisterSerializer d;
            Ev_public_register (data ser);
            Ev_make_auth_response_data user]))) /\
  (forall w (existing : value) (user : User) w1 payload w2,
     let b := truthy existing in
     let ser := serializer_of C (private_cls b) d w in
     check_permissions C request "register" VNone (world s) = (Return tt, w) ->
     get d "type" = VStr "private" ->
     is_valid (serializer_of C _serializer d w) = true ->
     data (serializer_of C _serializer d w) !! "existing" = Some existing ->
     is_valid ser = true ->
     private_service C b (data ser) w = (Return user, w1) ->
     make_auth_response_data C user w1 = (Return payload, w2) ->
     register C request s =
       (Return (mkResponse payload HTTP_201_CREATED),
        mkState w2
          (trace s ++
           [Ev_check_permissions "register" VNone;
            Ev_validate _serializer d;
            Ev_validate (private_cls b) d;
            Ev_private_register b (data ser);
            Ev_make_auth_response_data user]))) /\
  (forall (resp : Response) s',
     register C request s = (Return resp, s') ->
     resp_status resp = HTTP_201_CREATED /\
     exists (user : User) w1,
       make_auth_response_data C user w1
         = (Return (resp_data resp), world s')).
Proof.
  cbv zeta. split; [| split].
  - intros w user w1 payload w2 Hperm Hty Hon Hvalid Hsvc Hauth.
    rewrite (register_allowed _ _ _ Hperm). simpl. rewrite Hty. simpl.
    unfold _public_register. rewrite Hon. simpl.
    unfold mbind at 1, Py_bind at 1, try_except, parse_public_register_data.
    unfold mbind at 1, Py_bind at 1.
    rewrite parse_data_valid by exact Hvalid. simpl.
    unfold call at 1. simpl. rewrite Hsvc.
    erewrite respond_Return by exact Hauth. simpl.
    rewrite <- !app_assoc. reflexivity.
  - intros w existing user w1 payload w2 Hperm Hty H1 H2 H3 Hsvc Hauth.
    rewrite (register_allowed _ _ _ Hperm). simpl. rewrite Hty. simpl.
    pose proof (private_register_accepted request
      (mkState w (trace s ++ [Ev_check_permissions "register" VNone]))
      existing H1 H2 H3) as Hp.
    simpl in Hp. rewrite Hsvc in Hp. rewrite Hp.
    erewrite respond_Return by exact Hauth. simpl.
    rewrite <- !app_assoc. reflexivity.
  - intros resp s' H. unfold register in H.
    apply bind_Return_inv in H as (u & s1 & _ & H). simpl in H.
    destruct (eq_str (get (DATA request) "type") "public").
    + unfold _public_register in H.
      destruct (PUBLIC_REGISTER_ENABLED C); simpl in H; [| discriminate].
      apply bind_Return_inv in H as (user & s2 & _ & H).
      apply respond_Return_inv in H as [H1 H2]. eauto.
    + destruct (eq_str (get (DATA request) "type") "private");
        [| discriminate].
      unfold _private_register in H.
      apply bind_Return_inv in H as (rt & s2 & _ & H).
      apply bind_Return_inv in H as (user & s3 & _ & H).
      apply respond_Return_inv in H as [H1 H2]. eauto.
Qed.

(** C7.  A login of type "normal" that is let in passes the payload's
    [username] and [password] ([None] when absent) to
    [get_and_validate_user]; one of type "github" passes the payload's [code]
    to [github.me] and registers the user with username, full_name, id and
    bio of the returned user_info, the returned email and the payload's
    [token].  When the calls return, [create] answers with status 200 and the
    payload [make_auth_response_data] returns for the user; and every
    response [create] returns has status 200 and that payload, for a user one
    of the two paths obtained. *)
Theorem login_success_is_200 request s :
  let d := DATA request in
  (forall w (user : User) w1 payload w2,
     check_permissions C request "create" VNone (world s) = (Return tt, w) ->
     get d "type" = VStr "normal" ->
     get_and_validate_user C (get d "username") (get d "password") w
       = (Return user, w1) ->
     make_auth_response_data C user w1 = (Return payload, w2) ->
     create C request s =
       (Return (mkResponse payload HTTP_200_OK),
        mkState w2
          (trace s ++
           [Ev_check_permissions "create" VNone;
            Ev_get_and_validate_user (get d "username") (get d "password");
            Ev_make_auth_response_data user]))) /\
  (forall w (email : value) (user_info : UserInfo) w0 (user : User) w1
          payload w2,
     check_permissions C request "create" VNone (world s) = (Return tt, w) ->
     get d "type" = VStr "github" ->
     github_me C (get d "code") w = (Return (email, user_info), w0) ->
     github_register C (ui_username user_info) email (ui_full_name user_info)
       (ui_id user_info) (ui_bio user_info) (get d "token") w0
       = (Return user, w1) ->
     make_auth_response_data C user w1 = (Return payload, w2) ->
     create C request s =
       (Return (mkResponse payload HTTP_200_OK),
        mkState w2
          (trace s ++
           [Ev_check_permissions "create" VNone;
            Ev_github_me (get d "code");
            Ev_github_register (ui_username user_info) email
              (ui_full_name user_info) (ui_id user_info) (ui_bio user_info)
              (get d "token");
            Ev_make_auth_response_data user]))) /\
  (forall (resp : Response) s',
     create C request s = (Return resp, s') ->
     resp_status resp = HTTP_200_OK /\
     exists (user : User) w w1,
       check_permissions C request "create" VNone (world s) = (Return tt, w) /\
       make_auth_response_data C user w1
         = (Return (resp_data resp), world s') /\
       ((get d "type" = VStr "normal" /\
         get_and_validate_user C (get d "username") (get d "password") w
           = (Return user, w1)) \/
        (get d "type" = VStr "github" /\
         exists (email : value) (user_info : UserInfo) w0,
           github_me C (get d "code") w = (Return (email, user_info), w0) /\
           github_register C (ui_username user_info) email
             (ui_full_name user_info) (ui_id user_info) (ui_bio user_info)
             (get d "token") w0 = (Return user, w1)))).
Proof.
  cbv zeta. split; [| split].
  - intros w user w1 payload w2 Hperm Hty Hsvc Hauth.
    rewrite (create_allowed _ _ _ Hperm). simpl. rewrite Hty. simpl.
    unfold _login. erewrite call_Return by exact Hsvc.
    erewrite respond_Return by exact Hauth. simpl.
    rewrite <- !app_assoc. reflexivity.
  - intros w email user_info w0 user w1 payload w2 Hperm Hty Hme Hsvc Hauth.
    rewrite (create_allowed _ _ _ Hperm). simpl. rewrite Hty. simpl.
    unfold _github_login. erewrite call_Return by exact Hme. simpl.
    erewrite call_Return by exact Hsvc.
    erewrite respond_Return by exact Hauth. simpl.
    rewrite <- !app_assoc. reflexivity.
  - intros resp s' H. unfold create in H.
    apply bind_Return_inv in H as ([] & s1 & Hperm & H). simpl in H.
    apply call_Return_inv in Hperm as [Hperm _].
    destruct (eq_str (get (DATA request) "type") "normal") eqn:Hn.
    + apply eq_str_true in Hn. unfold _login in H.
      apply bind_Return_inv in H as (user & s2 & Hsvc & H).
      apply call_Return_inv in Hsvc as [Hsvc _].
      apply respond_Return_inv in H as [H1 H2].
      split; [exact H1 |]. exists user, (world s1), (world s2). auto.
    + destruct (eq_str (get (DATA request) "type") "github") eqn:Hg;
        [| discriminate].
      apply eq_str_true in Hg. unfold _github_login in H.
      apply bind_Return_inv in H as ([email user_info] & s2 & Hme & H).
      apply call_Return_inv in Hme as [Hme _].
      apply bind_Return_inv in H as (user & s3 & Hsvc & H).
      apply call_Return_inv in Hsvc as [Hsvc _].
      apply respond_Return_inv in H as [H1 H2].
      split; [exact H1 |]. exists user, (world s1), (world s3).
      split; [exact Hperm |]. split; [exact H2 |]. right. split; [exact Hg |].
      exists email, user_info, (world s2). auto.
Qed.

(** ** The authorization check *)

Lemma logs_ret {A : Type} (P : event User -> Prop) (a : A) :
  logs P (mret a : Py World User A).
Proof. intros s. exists []. rewrite app_nil_r. auto. Qed.

Lemma logs_raise {A : Type} (P : event User -> Prop) e :
  logs P (raise e : Py World User A).
Proof. intros s. exists []. rewrite app_nil_r. auto. Qed.

Lemma logs_call {A : Type} (P : event User -> Prop) ev
    (f : World -> outcome A * World) :
  P ev -> logs P (call ev f).
Proof.
  intros H s. exists [ev]. unfold call.
  destruct (f (world s)) as [r w]. auto.
Qed.

Lemma logs_bind {A B : Type} (P : event User -> Prop)
    (m : Py World User A) (k : A -> Py World User B) :
  logs P m -> (forall a, logs P (k a)) -> logs P (m ≫= k).
Proof.
  intros Hm Hk s. unfold mbind, Py_bind.
  destruct (Hm s) as (l1 & E1 & F1).
  destruct (m s) as [[a | e] s1]; simpl in E1.
  - destruct (Hk a s1) as (l2 & E2 & F2). exists (l1 ++ l2).
    rewrite E2, E1, app_assoc. split; [reflexivity |].
    apply Forall_app; auto.
  - exists l1. auto.
Qed.

Lemma logs_try_except {A : Type} (P : event User -> Prop)
    (body : Py World User A) handles (handler : exn -> Py World User A) :
  logs P body -> (forall e, logs P (handler e)) ->
  logs P (try_except body handles handler).
Proof.
  intros Hm Hk s. unfold try_except.
  destruct (Hm s) as (l1 & E1 & F1).
  destruct (body s) as [[a | e] s1]; simpl in E1.
  - exists l1. auto.
  - destruct (handles e); [| exists l1; auto].
    destruct (Hk e s1) as (l2 & E2 & F2). exists (l1 ++ l2).
    rewrite E2, E1, app_assoc. split; [reflexivity |].
    apply Forall_app; auto.
Qed.

Ltac logs_step :=
  match goal with
  | |- logs _ (mret _) => apply logs_ret
  | |- logs _ (raise _) => apply logs_raise
  | |- logs _ (call _ _) => apply logs_call; reflexivity
  | |- logs _ (_ ≫= _) => apply logs_bind; [| intros ?]
  | |- logs _ (try_except _ _ _) => apply logs_try_except; [| intros ?]
  | |- logs _ (if ?b then _ else _) => destruct b
  | |- logs _ (match ?x with _ => _ end) => destruct x
  end.

(** What the two views run after the check calls no [check_permissions]. *)
Lemma register_dispatch_logs request :
  logs (fun ev => is_processing ev = true)
    (let type := get (DATA request) "type" in
     if eq_str type "public" then _public_register C request
     else if eq_str type "private" then _private_register C request
     else raise (Exn BadRequest
                   (VStr (ugettext_lazy C "invalid register type")))).
Proof.
  cbv zeta.
  unfold _public_register, _private_register, parse_public_register_data,
    parse_private_register_for_existing_user_data,
    parse_private_register_for_new_user_data, parse_register_type,
    _parse_data, instantiate, respond.
  repeat logs_step.
Qed.

Lemma create_dispatch_logs request :
  logs (fun ev => is_processing ev = true)
    (let type := get (DATA request) "type" in
     if eq_str type "normal" then _login C request
     else if eq_str type "github" then _github_login C request
     else raise (Exn BadRequest
                   (VStr (ugettext_lazy C "invalid login type")))).
Proof.
  cbv zeta. unfold _login, _github_login, respond.
  repeat logs_step.
Qed.

(** C8.  The first call [register] makes is [check_permissions] with the
    action "register" and no object, and the first call [create] makes is
    [check_permissions] with the action "create" and no object; when the
    check raises (PermissionDenied or anything else), the view raises the
    same exception and has called nothing else. *)
Theorem permission_check_comes_first request s :
  (exists rest,
     calls (register C request) s
       = Ev_check_permissions "register" VNone :: rest /\
     Forall (fun ev => is_processing ev = true) rest) /\
  (exists rest,
     calls (create C request) s
       = Ev_check_permissions "create" VNone :: rest /\
     Forall (fun ev => is_processing ev = true) rest) /\
  (forall e w,
     check_permissions C request "register" VNone (world s) = (Raise e, w) ->
     register C request s =
       (Raise e,
        mkState w (trace s ++ [Ev_check_permissions "register" VNone])) /\
     calls (register C request) s = [Ev_check_permissions "register" VNone]) /\
  (forall e w,
     check_permissions C request "create" VNone (world s) = (Raise e, w) ->
     create C request s =
       (Raise e, mkState w (trace s ++ [Ev_check_permissions "create" VNone])) /\
     calls (create C request) s = [Ev_check_permissions "create" VNone]).
Proof.
  assert (Hreg : forall w,
    check_permissions C request "register" VNone (world s) = (Return tt, w) ->
    exists rest,
      calls (register C request) s
        = Ev_check_permissions "register" VNone :: rest /\
      Forall (fun ev => is_processing ev = true) rest).
  { intros w Hw.
    destruct (register_dispatch_logs request
      (mkState w (trace s ++ [Ev_check_permissions "register" VNone])))
      as (l & Hl & Fl).
    exists l. split; [| exact Fl]. apply calls_app.
    rewrite (register_allowed _ _ _ Hw).
    etransitivity; [exact Hl |]. simpl. rewrite <- app_assoc. reflexivity. }
  assert (Hcre : forall w,
    check_permissions C request "create" VNone (world s) = (Return tt, w) ->
    exists rest,
      calls (create C request) s
        = Ev_check_permissions "create" VNone :: rest /\
      Forall (fun ev => is_processing ev = true) rest).
  { intros w Hw.
    destruct (create_dispatch_logs request
      (mkState w (trace s ++ [Ev_check_permissions "create" VNone])))
      as (l & Hl & Fl).
    exists l. split; [| exact Fl]. apply calls_app.
    rewrite (create_allowed _ _ _ Hw).
    etransitivity; [exact Hl |]. simpl. rewrite <- app_assoc. reflexivity. }
  assert (Hreg' : forall e w,
     check_permissions C request "register" VNone (world s) = (Raise e, w) ->
     register C request s =
       (Raise e,
        mkState w (trace s ++ [Ev_check_permissions "register" VNone])) /\
     calls (register C request) s = [Ev_check_permissions "register" VNone]).
  { intros e w Hw. pose proof (register_denied _ _ _ _ Hw) as Hrun.
    split; [exact Hrun |]. apply calls_app. rewrite Hrun. reflexivity. }
  assert (Hcre' : forall e w,
     check_permissions C request "create" VNone (world s) = (Raise e, w) ->
     create C request s =
       (Raise e,
        mkState w (trace s ++ [Ev_check_permissions "create" VNone])) /\
     calls (create C request) s = [Ev_check_permissions "create" VNone]).
  { intros e w Hw. pose proof (create_denied _ _ _ _ Hw) as Hrun.
    split; [exact Hrun |]. apply calls_app. rewrite Hrun. reflexivity. }
  repeat split; auto.
  - destruct (check_permissions C request "register" VNone (world s))
      as [[[] | e] w] eqn:E; [eauto |].
    exists []. split; [apply (Hreg' e w eq_refl) | constructor].
  - destruct (check_permissions C request "create" VNone (world s))
      as [[[] | e] w] eqn:E; [eauto |].
    exists []. split; [apply (Hcre' e w eq_refl) | constructor].
  - apply (Hreg' e w); assumption.
  - apply (Hreg' e w); assumption.
  - apply (Hcre' e w); assumption.
  - apply (Hcre' e w); assumption.
Qed.

(** ** Fields a login does not read *)

(** C10.  [_login] reads only [username] and [password]: two requests that
    agree on them run alike, whatever [code], [token] or anything else they
    hold; [_github_login] reads only [code] and [token].  The same holds of
    [create] for two requests of type "normal", respectively "github", that
    the authorization check treats alike. *)
Theorem login_reads_only_its_fields (r1 r2 : Request Meta) s :
  (get (DATA r1) "username" = get (DATA r2) "username" ->
   get (DATA r1) "password" = get (DATA r2) "password" ->
   _login C r1 s = _login C r2 s /\
   (get (DATA r1) "type" = VStr "normal" ->
    get (DATA r2) "type" = VStr "normal" ->
    check_permissions C r1 "create" VNone (world s)
      = check_permissions C r2 "create" VNone (world s) ->
    create C r1 s = create C r2 s)) /\
  (get (DATA r1) "code" = get (DATA r2) "code" ->
   get (DATA r1) "token" = get (DATA r2) "token" ->
   _github_login C r1 s = _github_login C r2 s /\
   (get (DATA r1) "type" = VStr "github" ->
    get (DATA r2) "type" = VStr "github" ->
    check_permissions C r1 "create" VNone (world s)
      = check_permissions C r2 "create" VNone (world s) ->
    create C r1 s = create C r2 s)).
Proof.
  assert (Hlogin : forall s0,
    get (DATA r1) "username" = get (DATA r2) "username" ->
    get (DATA r1) "password" = get (DATA r2) "password" ->
    _login C r1 s0 = _login C r2 s0).
  { intros s0 Hu Hp. unfold _login. rewrite Hu, Hp. reflexivity. }
  assert (Hgithub : forall s0,
    get (DATA r1) "code" = get (DATA r2) "code" ->
    get (DATA r1) "token" = get (DATA r2) "token" ->
    _github_login C r1 s0 = _github_login C r2 s0).
  { intros s0 Hc Ht. unfold _github_login. rewrite Hc, Ht. reflexivity. }
  split; intros Ha Hb; (split; [auto |]); intros T1 T2 Hperm;
    destruct (check_permissions C r2 "create" VNone (world s))
      as [[[] | e] w] eqn:E2.
  - rewrite (create_allowed _ _ _ Hperm), (create_allowed _ _ _ E2).
    simpl. rewrite T1, T2. simpl. auto.
  - rewrite (create_denied _ _ _ _ Hperm), (create_denied _ _ _ _ E2).
    reflexivity.
  - rewrite (create_allowed _ _ _ Hperm), (create_allowed _ _ _ E2).
    simpl. rewrite T1, T2. simpl. auto.
  - rewrite (create_denied _ _ _ _ Hperm), (create_denied _ _ _ _ E2).
    reflexivity.
Qed.

(** * Beyond the dispatch: validation and failures *)

Lemma respond_Raise (user : User) (status : Z) s e w :
  make_auth_response_data C user (world s) = (Raise e, w) ->
  respond C user status s =
    (Raise e, mkState w (trace s ++ [Ev_make_auth_response_data user])).
Proof.
  intros H. unfold respond. erewrite call_Raise by exact H. reflexivity.
Qed.

(** [_public_register] once registration is enabled and the payload has
    passed PublicRegisterSerializer. *)
Lemma public_register_accepted request s :
  let d := DATA request in
  let ser := serializer_of C PublicRegisterSerializer d (world s) in
  let log w :=
    mkState w
      (trace s ++ [Ev_validate PublicRegisterSerializer d;
                   Ev_public_register (data ser)]) in
  PUBLIC_REGISTER_ENABLED C = true ->
  is_valid ser = true ->
  _public_register C request s =
    match public_register C (data ser) (world s) with
    | (Return user, w) => respond C user HTTP_201_CREATED (log w)
    | (Raise e, w) =>
        if is_IntegrityError e then (Raise (Exn BadRequest (detail e)), log w)
        else (Raise e, log w)
    end.
Proof.
  cbv zeta. intros Hon Hvalid. unfold _public_register. rewrite Hon. simpl.
  unfold mbind at 1, Py_bind at 1, try_except, parse_public_register_data.
  unfold mbind at 1, Py_bind at 1.
  rewrite parse_data_valid by exact Hvalid. simpl.
  unfold call at 1. simpl.
  destruct (public_register C _ _) as [[user | e] w]; rewrite <- !app_assoc.
  - reflexivity.
  - destruct (is_IntegrityError e); reflexivity.
Qed.

Lemma register_public request s w :
  get (DATA request) "type" = VStr "public" ->
  check_permissions C request "register" VNone (world s) = (Return tt, w) ->
  register C request s =
    _public_register C request
      (mkState w (trace s ++ [Ev_check_permissions "register" VNone])).
Proof.
  intros Hty Hperm. rewrite (register_allowed _ _ _ Hperm). simpl.
  rewrite Hty. reflexivity.
Qed.

Lemma register_private request s w :
  get (DATA request) "type" = VStr "private" ->
  check_permissions C request "register" VNone (world s) = (Return tt, w) ->
  register C request s =
    _private_register C request
      (mkState w (trace s ++ [Ev_check_permissions "register" VNone])).
Proof.
  intros Hty Hperm. rewrite (register_allowed _ _ _ Hperm). simpl.
  rewrite Hty. reflexivity.
Qed.

(** X2.  A public registration whose payload PublicRegisterSerializer
    rejects raises RequestValidationError with the serializer's errors: the
    handler around the call catches IntegrityError only, so the error is not
    turned into a plain BadRequest; [public_register] is not called and the
    world is the one the authorization check left. *)
Theorem public_register_validation_error request s w :
  let d := DATA request in
  let ser := serializer_of C PublicRegisterSerializer d w in
  get d "type" = VStr "public" ->
  PUBLIC_REGISTER_ENABLED C = true ->
  check_permissions C request "register" VNone (world s) = (Return tt, w) ->
  is_valid ser = false ->
  register C request s =
    (Raise (Exn RequestValidationError (errors ser)),
     mkState w
       (trace s ++ [Ev_check_permissions "register" VNone;
                    Ev_validate PublicRegisterSerializer d])).
Proof.
  cbv zeta. intros Hty Hon Hperm Hinvalid.
  rewrite (register_public _ _ _ Hty Hperm).
  unfold _public_register. rewrite Hon. simpl.
  unfold mbind at 1, Py_bind at 1, try_except, parse_public_register_data.
  unfold mbind at 1, Py_bind at 1.
  rewrite parse_data_invalid by exact Hinvalid. simpl.
  rewrite <- !app_assoc. reflexivity.
Qed.

(** X3.  The handler of [_public_register] is selective: an exception of
    [public_register] that is not an IntegrityError leaves [register]
    unchanged, class and detail. *)
Theorem public_register_other_error_propagates request s w w' e :
  let d := DATA request in
  let ser := serializer_of C PublicRegisterSerializer d w in
  get d "type" = VStr "public" ->
  PUBLIC_REGISTER_ENABLED C = true ->
  check_permissions C request "register" VNone (world s) = (Return tt, w) ->
  is_valid ser = true ->
  public_register C (data ser) w = (Raise e, w') ->
  exn_cls e <> IntegrityError ->
  register C request s =
    (Raise e,
     mkState w'
       (trace s ++ [Ev_check_permissions "register" VNone;
                    Ev_validate PublicRegisterSerializer d;
                    Ev_public_register (data ser)])).
Proof.
  cbv zeta. intros Hty Hon Hperm Hvalid Hsvc Hcls.
  rewrite (register_public _ _ _ Hty Hperm).
  pose proof (public_register_accepted request
    (mkState w (trace s ++ [Ev_check_permissions "register" VNone]))
    Hon Hvalid) as Hp.
  simpl in Hp. rewrite Hsvc in Hp. rewrite Hp.
  assert (is_IntegrityError e = false) as ->.
  { unfold is_IntegrityError. destruct (exn_cls e); congruence. }
  rewrite <- !app_assoc. reflexivity.
Qed.

(** X4.  [make_auth_response_data] is called outside the try block of
    [_public_register]: whatever it raises, an IntegrityError included,
    leaves [register] as it was raised, after the user has been
    registered. *)
Theorem public_register_response_error_propagates
    request s w (user : User) w1 e w2 :
  let d := DATA request in
  let ser := serializer_of C PublicRegisterSerializer d w in
  get d "type" = VStr "public" ->
  PUBLIC_REGISTER_ENABLED C = true ->
  check_permissions C request "register" VNone (world s) = (Return tt, w) ->
  is_valid ser = true ->
  public_register C (data ser) w = (Return user, w1) ->
  make_auth_response_data C user w1 = (Raise e, w2) ->
  register C request s =
    (Raise e,
     mkState w2
       (trace s ++ [Ev_check_permissions "register" VNone;
                    Ev_validate PublicRegisterSerializer d;
                    Ev_public_register (data ser);
                    Ev_make_auth_response_data user])).
Proof.
  cbv zeta. intros Hty Hon Hperm Hvalid Hsvc Hauth.
  rewrite (register_public _ _ _ Hty Hperm).
  pose proof (public_register_accepted request
    (mkState w (trace s ++ [Ev_check_permissions "register" VNone]))
    Hon Hvalid) as Hp.
  simpl in Hp. rewrite Hsvc in Hp. rewrite Hp.
  erewrite respond_Raise by exact Hauth. simpl.
  rewrite <- !app_assoc. reflexivity.
Qed.

(** X5.  A private registration whose payload the selected serializer
    (existing user or new user) rejects raises RequestValidationError with
    that serializer's errors, and neither private service is called. *)
Theorem private_register_validation_error request s w (existing : value) :
  let d := DATA request in
  let cls := private_cls (truthy existing) in
  get d "type" = VStr "private" ->
  check_permissions C request "register" VNone (world s) = (Return tt, w) ->
  is_valid (serializer_of C _serializer d w) = true ->
  data (serializer_of C _serializer d w) !! "existing" = Some existing ->
  is_valid (serializer_of C cls d w) = false ->
  register C request s =
    (Raise (Exn RequestValidationError (errors (serializer_of C cls d w))),
     mkState w
       (trace s ++ [Ev_check_permissions "register" VNone;
                    Ev_validate _serializer d; Ev_validate cls d])).
Proof.
  cbv zeta. intros Hty Hperm H1 H2 H3.
  rewrite (register_private _ _ _ Hty Hperm).
  rewrite (private_register_rejected request
    (mkState w (trace s ++ [Ev_check_permissions "register" VNone]))
    existing H1 H2 H3).
  simpl. rewrite <- !app_assoc. reflexivity.
Qed.

(** X6.  With rest_framework's BooleanField in [parse_register_type], the
    path of a private registration is chosen by the coerced [existing]:
    "true", "t", "True" and "1" select the existing-user path, "false", "f",
    "False" and "0" the new-user path, anything else goes by its truth
    value.  The request is validated by that path's serializer and handed to
    that path's service, and the outcome, the world and the log are those of
    that one service call followed by [make_auth_response_data]. *)
Theorem private_register_coerces_existing request s w (v : value) :
  let d := DATA request in
  let b := BooleanField_from_native v in
  let ser := serializer_of C (private_cls b) d w in
  let log :=
    trace s ++ [Ev_check_permissions "register" VNone;
                Ev_validate _serializer d; Ev_validate (private_cls b) d] in
  get d "type" = VStr "private" ->
  check_permissions C request "register" VNone (world s) = (Return tt, w) ->
  serializer_of C _serializer d w = BooleanField_serializer d ->
  d !! "existing" = Some v ->
  register C request s =
    (if is_valid ser then
       match private_service C b (data ser) w with
       | (Return user, w1) =>
           match make_auth_response_data C user w1 with
           | (Return payload, w2) =>
               (Return (mkResponse payload HTTP_201_CREATED),
                mkState w2
                  (log ++ [Ev_private_register b (data ser);
                           Ev_make_auth_response_data user]))
           | (Raise e, w2) =>
               (Raise e,
                mkState w2
                  (log ++ [Ev_private_register b (data ser);
                           Ev_make_auth_response_data user]))
           end
       | (Raise e, w1) =>
           (Raise e, mkState w1 (log ++ [Ev_private_register b (data ser)]))
       end
     else
       (Raise (Exn RequestValidationError (errors ser)), mkState w log)) /\
  filter (fun ev => is_validation ev = true) (calls (register C request) s)
    = [Ev_validate _serializer d; Ev_validate (private_cls b) d] /\
  filter (fun ev => is_registration_service ev = true)
         (calls (register C request) s)
    = (if is_valid ser then [Ev_private_register b (data ser)] else []).
Proof.
  cbv zeta. intros Hty Hperm Hser Hv.
  assert (H1 : is_valid (serializer_of C _serializer (DATA request) w) = true).
  { rewrite Hser. unfold BooleanField_serializer. rewrite Hv. reflexivity. }
  assert (H2 : data (serializer_of C _serializer (DATA request) w)
                 !! "existing" = Some (VBool (BooleanField_from_native v))).
  { rewrite Hser. unfold BooleanField_serializer. rewrite Hv. simpl.
    apply lookup_singleton_eq. }
  split.
  - exact (private_register_run request s w
             (VBool (BooleanField_from_native v)) Hty Hperm H1 H2).
  - exact (private_register_calls request s w
             (VBool (BooleanField_from_native v)) Hty Hperm H1 H2).
Qed.

(** X8.  A normal login whose credentials [get_and_validate_user] refuses
    raises that service's exception unchanged; [make_auth_response_data] is
    not called, so no response payload is built. *)
Theorem login_failure_propagates request s w e w1 :
  let d := DATA request in
  get d "type" = VStr "normal" ->
  check_permissions C request "create" VNone (world s) = (Return tt, w) ->
  get_and_validate_user C (get d "username") (get d "password") w
    = (Raise e, w1) ->
  create C request s =
    (Raise e,
     mkState w1
       (trace s ++
        [Ev_check_permissions "create" VNone;
         Ev_get_and_validate_user (get d "username") (get d "password")])).
Proof.
  cbv zeta. intros Hty Hperm Hsvc.
  rewrite (create_allowed _ _ _ Hperm). simpl. rewrite Hty. simpl.
  unfold _login. erewrite call_Raise by exact Hsvc. simpl.
  rewrite <- !app_assoc. reflexivity.
Qed.

(** X9.  A GitHub login stops at the first collaborator that fails: when
    [github.me] raises, [github_register] is not called and no user is
    created; when [github_register] raises, no response is built.  Either
    exception leaves [create] unchanged. *)
Theorem github_login_failure_propagates request s w :
  let d := DATA request in
  get d "type" = VStr "github" ->
  check_permissions C request "create" VNone (world s) = (Return tt, w) ->
  (forall e w0,
     github_me C (get d "code") w = (Raise e, w0) ->
     create C request s =
       (Raise e,
        mkState w0
          (trace s ++ [Ev_check_permissions "create" VNone;
                       Ev_github_me (get d "code")]))) /\
  (forall (email : value) (user_info : UserInfo) w0 e w1,
     github_me C (get d "code") w = (Return (email, user_info), w0) ->
     github_register C (ui_username user_info) email (ui_full_name user_info)
       (ui_id user_info) (ui_bio user_info) (get d "token") w0
       = (Raise e, w1) ->
     create C request s =
       (Raise e,
        mkState w1
          (trace s ++
           [Ev_check_permissions "create" VNone;
            Ev_github_me (get d "code");
            Ev_github_register (ui_username user_info) email
              (ui_full_name user_info) (ui_id user_info) (ui_bio user_info)
              (get d "token")]))).
Proof.
  cbv zeta. intros Hty Hperm.
  assert (Hrun : create C request s = _github_login C request
    (mkState w (trace s ++ [Ev_check_permissions "create" VNone]))).
  { rewrite (create_allowed _ _ _ Hperm). simpl. rewrite Hty. reflexivity. }
  split.
  - intros e w0 Hme. rewrite Hrun. unfold _github_login.
    erewrite call_Raise by exact Hme. simpl.
    rewrite <- !app_assoc. reflexivity.
  - intros email user_info w0 e w1 Hme Hsvc. rewrite Hrun.
    unfold _github_login. erewrite call_Return by exact Hme. simpl.
    erewrite call_Raise by exact Hsvc. simpl.
    rewrite <- !app_assoc. reflexivity.
Qed.

(** X10.  [settings.PUBLIC_REGISTER_ENABLED] gates public registration
    only: a registration of any other type and every login run the same
    under either value of the flag. *)
Theorem only_public_register_reads_the_flag request s (enabled : bool) :
  (get (DATA request) "type" <> VStr "public" ->
   register (with_PUBLIC_REGISTER_ENABLED C enabled) request s
     = register C request s) /\
  create (with_PUBLIC_REGISTER_ENABLED C enabled) request s
    = create C request s.
Proof.
  split; [| reflexivity].
  intros Hty. apply eq_str_false in Hty.
  unfold register, mbind, Py_bind, call. simpl.
  destruct (check_permissions C request "register" VNone (world s))
    as [[[] | e] w]; [| reflexivity].
  rewrite Hty. reflexivity.
Qed.

(** X13.  A request without a [type], or with a [type] that is not a
    string, is an invalid one for both views: once let in, [register] raises
    BadRequest "invalid register type" and [create] raises BadRequest
    "invalid login type". *)
Theorem type_must_be_a_string request s :
  (forall t : string, DATA request !! "type" <> Some (VStr t)) ->
  (forall w,
     check_permissions C request "register" VNone (world s) = (Return tt, w) ->
     register C request s =
       (Raise (Exn BadRequest (VStr (ugettext_lazy C "invalid register type"))),
        mkState w (trace s ++ [Ev_check_permissions "register" VNone]))) /\
  (forall w,
     check_permissions C request "create" VNone (world s) = (Return tt, w) ->
     create C request s =
       (Raise (Exn BadRequest (VStr (ugettext_lazy C "invalid login type"))),
        mkState w (trace s ++ [Ev_check_permissions "create" VNone]))).
Proof.
  intros Hty.
  assert (Hno : forall t, eq_str (get (DATA request) "type") t = false).
  { intros t. unfold get.
    destruct (DATA request !! "type") as [v |] eqn:E; [| reflexivity].
    destruct v as [| | | t0 | |]; try reflexivity.
    destruct (Hty t0). reflexivity. }
  split; intros w Hperm.
  - rewrite (register_allowed _ _ _ Hperm). simpl. rewrite !Hno. reflexivity.
  - rewrite (create_allowed _ _ _ Hperm). simpl. rewrite !Hno. reflexivity.
Qed.

(** * What the views never do *)

Lemma logs_calls {A : Type} (P : event User -> Prop) (m : Py World User A) :
  logs P m -> forall s, Forall P (calls m s).
Proof.
  intros H s. destruct (H s) as (l & Hl & Fl).
  rewrite (calls_app _ _ _ Hl). exact Fl.
Qed.

Ltac logs_auto := repeat (cbv zeta; logs_step).

(** X11.  Each view keeps to its own collaborators: [register] never calls
    [get_and_validate_user], [github.me] or [github_register], and [create]
    never runs a serializer and never calls a registration service, whatever
    the request. *)
Theorem views_keep_to_their_services request s :
  Forall (fun ev => is_login_service ev = false)
         (calls (register C request) s) /\
  Forall (fun ev => is_registration_service ev || is_validation ev = false)
         (calls (create C request) s).
Proof.
  split; apply logs_calls.
  - unfold register, _public_register, _private_register,
      parse_public_register_data,
      parse_private_register_for_existing_user_data,
      parse_private_register_for_new_user_data, parse_register_type,
      _parse_data, instantiate, respond.
    logs_auto.
  - unfold create, _login, _github_login, respond. logs_auto.
Qed.

Lemma at_most_ret {A : Type} (n : nat) (f : event User -> bool) (a : A) :
  at_most n f (mret a : Py World User A).
Proof. intros s. exists []. rewrite app_nil_r. simpl. split; [auto | lia]. Qed.

Lemma at_most_raise {A : Type} (n : nat) (f : event User -> bool) e :
  at_most n f (raise e : Py World User A).
Proof. intros s. exists []. rewrite app_nil_r. simpl. split; [auto | lia]. Qed.

Lemma at_most_call {A : Type} (n : nat) (f : event User -> bool)
    (ev : event User) (g : World -> outcome A * World) :
  (if f ev then 1 else 0) <= n -> at_most n f (call ev g).
Proof.
  intros H s. exists [ev]. unfold call.
  destruct (g (world s)) as [r w]. split; [reflexivity |].
  rewrite filter_cons, filter_nil.
  destruct (f ev); [rewrite decide_True by reflexivity
                   | rewrite decide_False by discriminate]; simpl; lia.
Qed.

Lemma at_most_bind {A B : Type} (n1 n2 n : nat) (f : event User -> bool)
    (m : Py World User A) (k : A -> Py World User B) :
  n1 + n2 <= n ->
  at_most n1 f m -> (forall a, at_most n2 f (k a)) -> at_most n f (m ≫= k).
Proof.
  intros Hn Hm Hk s. unfold mbind, Py_bind.
  destruct (Hm s) as (l1 & E1 & F1).
  destruct (m s) as [[a | e] s1]; simpl in E1.
  - destruct (Hk a s1) as (l2 & E2 & F2). exists (l1 ++ l2).
    rewrite E2, E1, app_assoc. split; [reflexivity |].
    rewrite filter_app, length_app. lia.
  - exists l1. split; [exact E1 | lia].
Qed.

Lemma at_most_try_except {A : Type} (n1 n2 n : nat)
    (f : event User -> bool)
    (body : Py World User A) handles (handler : exn -> Py World User A) :
  n1 + n2 <= n ->
  at_most n1 f body -> (forall e, at_most n2 f (handler e)) ->
  at_most n f (try_except body handles handler).
Proof.
  intros Hn Hm Hk s. unfold try_except.
  destruct (Hm s) as (l1 & E1 & F1).
  destruct (body s) as [[a | e] s1]; simpl in E1.
  - exists l1. split; [exact E1 | lia].
  - destruct (handles e); [| exists l1; split; [exact E1 | lia]].
    destruct (Hk e s1) as (l2 & E2 & F2). exists (l1 ++ l2).
    rewrite E2, E1, app_assoc. split; [reflexivity |].
    rewrite filter_app, length_app. lia.
Qed.

Lemma at_most_calls {A : Type} (n : nat) (f : event User -> bool)
    (m : Py World User A) :
  at_most n f m ->
  forall s, length (filter (fun ev => f ev = true) (calls m s)) <= n.
Proof.
  intros H s. destruct (H s) as (l & Hl & Fl).
  rewrite (calls_app _ _ _ Hl). exact Fl.
Qed.

(** A budget of one call is spent either before or after a bind. *)
Ltac at_most_auto :=
  cbv zeta;
  lazymatch goal with
  | |- at_most _ _ (mret _) => apply at_most_ret
  | |- at_most _ _ (raise _) => apply at_most_raise
  | |- at_most _ _ (call _ _) => apply at_most_call; simpl; lia
  | |- at_most 0 _ (_ ≫= _) =>
      apply (at_most_bind 0 0); [lia | at_most_auto | intros ?; at_most_auto]
  | |- at_most 1 _ (_ ≫= _) =>
      first
        [ solve [apply (at_most_bind 0 1);
                 [lia | at_most_auto | intros ?; at_most_auto]]
        | solve [apply (at_most_bind 1 0);
                 [lia | at_most_auto | intros ?; at_most_auto]] ]
  | |- at_most 0 _ (try_except _ _ _) =>
      apply (at_most_try_except 0 0);
        [lia | at_most_auto | intros ?; at_most_auto]
  | |- at_most 1 _ (try_except _ _ _) =>
      first
        [ solve [apply (at_most_try_except 1 0);
                 [lia | at_most_auto | intros ?; at_most_auto]]
        | solve [apply (at_most_try_except 0 1);
                 [lia | at_most_auto | intros ?; at_most_auto]] ]
  | |- at_most _ _ (if ?b then _ else _) => destruct b; at_most_auto
  | |- at_most _ _ (match ?x with _ => _ end) => destruct x; at_most_auto
  end.

(** X12.  One request, one user: [register] calls at most one registration
    service, and each view calls [make_auth_response_data] at most once and
    a login service ([get_and_validate_user] or [github_register]) at most
    once. *)
Theorem one_service_call_per_request request s :
  length (filter (fun ev => is_registration_service ev = true)
            (calls (register C request) s)) <= 1 /\
  length (filter (fun ev => is_make_auth_response_data ev = true)
            (calls (register C request) s)) <= 1 /\
  length (filter (fun ev => is_make_auth_response_data ev = true)
            (calls (create C request) s)) <= 1 /\
  length (filter (fun ev => is_user_lookup ev = true)
            (calls (create C request) s)) <= 1.
Proof.
  repeat split; apply at_most_calls.
  - unfold register, _public_register, _private_register,
      parse_public_register_data,
      parse_private_register_for_existing_user_data,
      parse_private_register_for_new_user_data, parse_register_type,
      _parse_data, instantiate, respond.
    at_most_auto.
  - unfold register, _public_register, _private_register,
      parse_public_register_data,
      parse_private_register_for_existing_user_data,
      parse_private_register_for_new_user_data, parse_register_type,
      _parse_data, instantiate, respond.
    at_most_auto.
  - unfold create, _login, _github_login, respond. at_most_auto.
  - unfold create, _login, _github_login, respond. at_most_auto.
Qed.

(** * Where a response comes from *)

Lemma try_except_Return_inv {A : Type} (body : Py World User A) handles
    (f : exn -> exn) s (a : A) s' :
  try_except body handles (fun e => raise (f e)) s = (Return a, s') ->
  body s = (Return a, s').
Proof.
  unfold try_except. destruct (body s) as [[a0 | e] s1]; [auto |].
  destruct (handles e); discriminate.
Qed.

Lemma parse_data_Return_inv d cls s (a : gmap string value) s' :
  _parse_data C d cls s = (Return a, s') ->
  is_valid (serializer_of C cls d (world s)) = true /\
  a = data (serializer_of C cls d (world s)) /\ world s' = world s.
Proof.
  destruct (is_valid (serializer_of C cls d (world s))) eqn:E.
  - rewrite (parse_data_valid _ _ _ E). intros [= <- <-]. auto.
  - rewrite (parse_data_invalid _ _ _ E). discriminate.
Qed.

Lemma parse_register_type_Return_inv d s (rt : RegisterTypeEnum) s' :
  parse_register_type C d s = (Return rt, s') ->
  is_valid (serializer_of C _serializer d (world s)) = true /\
  world s' = world s /\
  exists existing : value,
    data (serializer_of C _serializer d (world s)) !! "existing"
      = Some existing /\
    rt = (if truthy existing then existing_user else new_user).
Proof.
  destruct (is_valid (serializer_of C _serializer d (world s))) eqn:E.
  - destruct (data (serializer_of C _serializer d (world s)) !! "existing")
      as [existing |] eqn:K.
    + rewrite (parse_register_type_valid _ _ _ E K). intros [= <- <-].
      eauto.
    + unfold parse_register_type, instantiate.
      erewrite call_Return by reflexivity. simpl. rewrite E, K. discriminate.
  - rewrite (parse_register_type_invalid _ _ E). discriminate.
Qed.

(** X14.  [register] answers with a response only when the request was let
    in, its [type] was "public" (with public registration enabled) or
    "private", every serializer on the path accepted the payload and the
    path's service returned a user; the response then has status 201 and the
    payload [make_auth_response_data] returned for that user. *)
Theorem register_response_comes_from_a_service request s resp s' :
  register C request s = (Return resp, s') ->
  registered_through C request s resp s'.
Proof.
  intros H. unfold register in H.
  apply bind_Return_inv in H as ([] & s1 & Hperm & H). simpl in H.
  apply call_Return_inv in Hperm as [Hperm _].
  destruct (eq_str (get (DATA request) "type") "public") eqn:Hpub.
  - apply eq_str_true in Hpub. unfold _public_register in H.
    destruct (PUBLIC_REGISTER_ENABLED C) eqn:Hon; simpl in H; [| discriminate].
    apply bind_Return_inv in H as (user & s2 & Hbody & H).
    apply try_except_Return_inv in Hbody.
    apply bind_Return_inv in Hbody as (d' & s3 & Hparse & Hsvc).
    apply parse_data_Return_inv in Hparse as (Hvalid & -> & Hw).
    apply call_Return_inv in Hsvc as [Hsvc _]. rewrite Hw in Hsvc.
    apply respond_Return_inv in H as [H1 H2].
    exists (world s1), user, (world s2). repeat split; auto.
  - destruct (eq_str (get (DATA request) "type") "private") eqn:Hpriv;
      [| discriminate].
    apply eq_str_true in Hpriv. unfold _private_register in H.
    apply bind_Return_inv in H as (rt & s2 & Hrt & H).
    apply parse_register_type_Return_inv in Hrt
      as (Hinner & Hw & existing & Hex & ->).
    apply bind_Return_inv in H as (user & s3 & Hpath & H).
    apply respond_Return_inv in H as [H1 H2].
    exists (world s1), user, (world s3). repeat split; auto.
    right. repeat split; auto. exists existing. split; [exact Hex |].
    cbv zeta. destruct (truthy existing); simpl.
    + apply bind_Return_inv in Hpath as (d' & s4 & Hparse & Hsvc).
      apply parse_data_Return_inv in Hparse as (Hvalid & -> & Hw').
      apply call_Return_inv in Hsvc as [Hsvc _].
      rewrite Hw', Hw in Hsvc. rewrite Hw in Hvalid. auto.
    + apply bind_Return_inv in Hpath as (d' & s4 & Hparse & Hsvc).
      apply parse_data_Return_inv in Hparse as (Hvalid & -> & Hw').
      apply call_Return_inv in Hsvc as [Hsvc _].
      rewrite Hw', Hw in Hsvc. rewrite Hw in Hvalid. auto.
Qed.

End Properties.

(** * The views on the small deployment *)

Lemma invalid_type_is_bad_request_witness :
  register (demo true true) (demo_request [("type", VStr "admin")]) demo_start
    = (Raise (Exn BadRequest (VStr "invalid register type")),
       mkState 0 [Ev_check_permissions "register" VNone]) /\
  create (demo true true) (demo_request [("username", VStr "bob")]) demo_start
    = (Raise (Exn BadRequest (VStr "invalid login type")),
       mkState 0 [Ev_check_permissions "create" VNone]).
Proof.
  split.
  - destruct (invalid_type_is_bad_request (demo true true)
                (demo_request [("type", VStr "admin")]) demo_start)
      as [H _].
    apply H; vm_compute; try discriminate; reflexivity.
  - destruct (invalid_type_is_bad_request (demo true true)
                (demo_request [("username", VStr "bob")]) demo_start)
      as [_ H].
    apply H; vm_compute; try discriminate; reflexivity.
Defined.

Lemma public_register_disabled_witness :
  register (demo false true)
    (demo_request [("type", VStr "public"); ("username", VStr "alice")])
    demo_start
    = (Raise (Exn BadRequest (VStr "Public register is disabled.")),
       mkState 0 [Ev_check_permissions "register" VNone]).
Proof.
  apply (public_register_disabled (demo false true)
           (demo_request [("type", VStr "public"); ("username", VStr "alice")])
           demo_start 0); vm_compute; reflexivity.
Defined.

Lemma private_register_routes_on_existing_witness :
  let request :=
    demo_request [("type", VStr "private"); ("existing", VBool true);
                  ("username", VStr "carol")] in
  register (demo true true) request demo_start
    = (Return (mkResponse {[ "username" := VStr "carol" ]} 201),
       mkState 1
         [Ev_check_permissions "register" VNone;
          Ev_validate _serializer (DATA request);
          Ev_validate PrivateRegisterForExistingUserSerializer (DATA request);
          Ev_private_register_for_existing_user {[ "username" := VStr "carol" ]};
          Ev_make_auth_response_data "carol"]) /\
  filter (fun ev => is_registration_service ev = true)
         (calls (register (demo true true) request) demo_start)
    = [Ev_private_register_for_existing_user {[ "username" := VStr "carol" ]}].
Proof.
  intros request.
  destruct (private_register_routes_on_existing (demo true true) request
              demo_start 0 true) as (Hrun & _ & Hsvc);
    [vm_compute; reflexivity ..|].
  split; [rewrite Hrun; vm_compute; reflexivity | exact Hsvc].
Defined.

Lemma private_register_needs_existing_witness :
  let request :=
    demo_request [("type", VStr "private"); ("username", VStr "carol")] in
  register (demo true true) request demo_start
    = (Raise (Exn RequestValidationError
                (VDict [("existing", VList [VStr "This field is required."])])),
       mkState 0 [Ev_check_permissions "register" VNone;
                  Ev_validate _serializer (DATA request)]) /\
  filter (fun ev => is_registration_service ev = true)
         (calls (register (demo true true) request) demo_start) = [].
Proof.
  intros request.
  destruct (private_register_needs_existing (demo true true) request
              demo_start 0) as (_ & H & _);
    [vm_compute; reflexivity ..|].
  apply H; vm_compute; reflexivity.
Defined.

(** The claim as stated fails on a non-boolean [existing]: "maybe" is
    coerced to true, the request is registered on the existing-user path and
    answered with 201. *)
Lemma private_register_needs_boolean_existing_counterexample :
  let request :=
    demo_request [("type", VStr "private"); ("existing", VStr "maybe");
                  ("username", VStr "carol")] in
  get (DATA request) "type" = VStr "private" /\
  (forall b : bool, DATA request !! "existing" <> Some (VBool b)) /\
  serializer_of (demo true true) _serializer (DATA request) 0
    = BooleanField_serializer (DATA request) /\
  register (demo true true) request demo_start
    = (Return (mkResponse {[ "username" := VStr "carol" ]} 201),
       mkState 1
         [Ev_check_permissions "register" VNone;
          Ev_validate _serializer (DATA request);
          Ev_validate PrivateRegisterForExistingUserSerializer (DATA request);
          Ev_private_register_for_existing_user {[ "username" := VStr "carol" ]};
          Ev_make_auth_response_data "carol"]) /\
  ~ (exists (errs : value) (st : state nat string),
       register (demo true true) request demo_start
         = (Raise (Exn RequestValidationError errs), st)).
Proof.
  intros request.
  assert (Hrun : register (demo true true) request demo_start
    = (Return (mkResponse {[ "username" := VStr "carol" ]} 201),
       mkState 1
         [Ev_check_permissions "register" VNone;
          Ev_validate _serializer (DATA request);
          Ev_validate PrivateRegisterForExistingUserSerializer (DATA request);
          Ev_private_register_for_existing_user {[ "username" := VStr "carol" ]};
          Ev_make_auth_response_data "carol"])).
  { vm_compute. reflexivity. }
  split; [vm_compute; reflexivity |].
  split; [intros b; vm_compute; discriminate |].
  split; [reflexivity |].
  split; [exact Hrun |].
  intros (errs & st & H). rewrite Hrun in H. discriminate.
Qed.

Lemma public_register_integrity_error_witness :
  let request :=
    demo_request [("type", VStr "public"); ("username", VStr "taken")] in
  register (demo true true) request demo_start
    = (Raise (Exn BadRequest (VStr "User is already register.")),
       mkState 0
         [Ev_check_permissions "register" VNone;
          Ev_validate PublicRegisterSerializer (DATA request);
          Ev_public_register {[ "username" := VStr "taken" ]}]).
Proof.
  intros request.
  apply (public_register_integrity_error (demo true true) request
           demo_start 0 0 (VStr "User is already register."));
    vm_compute; reflexivity.
Defined.

Lemma private_register_integrity_error_propagates_witness :
  let request :=
    demo_request [("type", VStr "private"); ("existing", VBool false);
                  ("username", VStr "taken")] in
  register (demo true true) request demo_start
    = (Raise (Exn IntegrityError (VStr "User is already register.")),
       mkState 0
         [Ev_check_permissions "register" VNone;
          Ev_validate _serializer (DATA request);
          Ev_validate PrivateRegisterForNewUserSerializer (DATA request);
          Ev_private_register_for_new_user {[ "username" := VStr "taken" ]}]).
Proof.
  intros request.
  apply (private_register_integrity_error_propagates (demo true true) request
           demo_start 0 0 false (VStr "User is already register."));
    vm_compute; reflexivity.
Defined.

Lemma register_success_is_201_witness :
  let public :=
    demo_request [("type", VStr "public"); ("username", VStr "alice")] in
  let private :=
    demo_request [("type", VStr "private"); ("existing", VBool true);
                  ("username", VStr "carol")] in
  register (demo true true) public demo_start
    = (Return (mkResponse {[ "username" := VStr "alice" ]} 201),
       mkState 1
         [Ev_check_permissions "register" VNone;
          Ev_validate PublicRegisterSerializer (DATA public);
          Ev_public_register {[ "username" := VStr "alice" ]};
          Ev_make_auth_response_data "alice"]) /\
  register (demo true true) private demo_start
    = (Return (mkResponse {[ "username" := VStr "carol" ]} 201),
       mkState 1
         [Ev_check_permissions "register" VNone;
          Ev_validate _serializer (DATA private);
          Ev_validate PrivateRegisterForExistingUserSerializer (DATA private);
          Ev_private_register_for_existing_user {[ "username" := VStr "carol" ]};
          Ev_make_auth_response_data "carol"]) /\
  forall resp s',
    register (demo true true) public demo_start = (Return resp, s') ->
    resp_status resp = 201%Z.
Proof.
  intros public private. split; [| split].
  - destruct (register_success_is_201 (demo true true) public demo_start)
      as (H & _ & _).
    apply (H 0 "alice" 1 {[ "username" := VStr "alice" ]} 1);
      vm_compute; reflexivity.
  - destruct (register_success_is_201 (demo true true) private demo_start)
      as (_ & H & _).
    apply (H 0 (VBool true) "carol" 1 {[ "username" := VStr "carol" ]} 1);
      vm_compute; reflexivity.
  - destruct (register_success_is_201 (demo true true) public demo_start)
      as (_ & _ & H).
    intros resp s' Hrun. apply (H resp s' Hrun).
Defined.

Lemma login_success_is_200_witness :
  let normal :=
    demo_request [("type", VStr "normal"); ("username", VStr "bob");
                  ("password", VStr "secret")] in
  let github :=
    demo_request [("type", VStr "github"); ("code", VStr "4f2a");
                  ("token", VStr "invitation")] in
  create (demo true true) normal demo_start
    = (Return (mkResponse {[ "username" := VStr "bob" ]} 200),
       mkState 0
         [Ev_check_permissions "create" VNone;
          Ev_get_and_validate_user (VStr "bob") (VStr "secret");
          Ev_make_auth_response_data "bob"]) /\
  create (demo true true) github demo_start
    = (Return (mkResponse {[ "username" := VStr "octocat" ]} 200),
       mkState 1
         [Ev_check_permissions "create" VNone;
          Ev_github_me (VStr "4f2a");
          Ev_github_register (VStr "octocat") (VStr "octocat@github.com")
            (VStr "The Octocat") (VInt 583231) VNone (VStr "invitation");
          Ev_make_auth_response_data "octocat"]) /\
  forall resp s',
    create (demo true true) normal demo_start = (Return resp, s') ->
    resp_status resp = 200%Z.
Proof.
  intros normal github. split; [| split].
  - destruct (login_success_is_200 (demo true true) normal demo_start)
      as (H & _ & _).
    apply (H 0 "bob" 0 {[ "username" := VStr "bob" ]} 0);
      vm_compute; reflexivity.
  - destruct (login_success_is_200 (demo true true) github demo_start)
      as (_ & H & _).
    apply (H 0 (VStr "octocat@github.com") demo_user_info 0 "octocat" 1
             {[ "username" := VStr "octocat" ]} 1);
      vm_compute; reflexivity.
  - destruct (login_success_is_200 (demo true true) normal demo_start)
      as (_ & _ & H).
    intros resp s' Hrun. apply (H resp s' Hrun).
Defined.

Lemma permission_check_comes_first_witness :
  let request :=
    demo_request [("type", VStr "public"); ("username", VStr "alice")] in
  register (demo true false) request demo_start
    = (Raise (Exn PermissionDenied (VStr "Permission denied")),
       mkState 0 [Ev_check_permissions "register" VNone]) /\
  create (demo true false) request demo_start
    = (Raise (Exn PermissionDenied (VStr "Permission denied")),
       mkState 0 [Ev_check_permissions "create" VNone]).
Proof.
  intros request.
  destruct (permission_check_comes_first (demo true false) request demo_start)
    as (_ & _ & Hreg & Hcre).
  split.
  - apply (Hreg (Exn PermissionDenied (VStr "Permission denied")) 0).
    vm_compute. reflexivity.
  - apply (Hcre (Exn PermissionDenied (VStr "Permission denied")) 0).
    vm_compute. reflexivity.
Defined.

Lemma login_reads_only_its_fields_witness :
  let r1 :=
    demo_request [("type", VStr "normal"); ("username", VStr "bob");
                  ("password", VStr "secret"); ("code", VStr "4f2a")] in
  let r2 :=
    demo_request [("type", VStr "normal"); ("username", VStr "bob");
                  ("password", VStr "secret"); ("token", VStr "invitation")] in
  let g1 :=
    demo_request [("type", VStr "github"); ("code", VStr "4f2a");
                  ("token", VStr "invitation"); ("username", VStr "bob")] in
  let g2 :=
    demo_request [("type", VStr "github"); ("code", VStr "4f2a");
                  ("token", VStr "invitation"); ("password", VStr "secret")] in
  create (demo true true) r1 demo_start = create (demo true true) r2 demo_start /\
  create (demo true true) g1 demo_start = create (demo true true) g2 demo_start.
Proof.
  intros r1 r2 g1 g2. split.
  - destruct (login_reads_only_its_fields (demo true true) r1 r2 demo_start)
      as [H _].
    apply H; vm_compute; reflexivity.
  - destruct (login_reads_only_its_fields (demo true true) g1 g2 demo_start)
      as [_ H].
    apply H; vm_compute; reflexivity.
Defined.

(** * Validation and failures on the deployments *)

Lemma public_register_validation_error_witness :
  let request := demo_request [("type", VStr "public")] in
  register (demo true true) request demo_start
    = (Raise (Exn RequestValidationError
                (VDict [("username", VList [VStr "This field is required."])])),
       mkState 0 [Ev_check_permissions "register" VNone;
                  Ev_validate PublicRegisterSerializer (DATA request)]).
Proof.
  intros request.
  apply (public_register_validation_error (demo true true) request
           demo_start 0); vm_compute; reflexivity.
Defined.

Lemma public_register_other_error_propagates_witness :
  let C := demo_with demo_pass_through demo_create_user demo_auth demo_me in
  let request := demo_request [("type", VStr "public"); ("username", VInt 7)] in
  register C request demo_start
    = (Raise (Exn (OtherException "TypeError") VNone),
       mkState 0 [Ev_check_permissions "register" VNone;
                  Ev_validate PublicRegisterSerializer (DATA request);
                  Ev_public_register (DATA request)]).
Proof.
  intros C request.
  apply (public_register_other_error_propagates C request demo_start 0 0
           (Exn (OtherException "TypeError") VNone));
    vm_compute; try discriminate; reflexivity.
Defined.

Lemma public_register_response_error_propagates_witness :
  let C :=
    demo_with demo_serializer_of demo_create_user
      (fun user w => (Raise (Exn IntegrityError (VStr "no token")), w))
      demo_me in
  let request :=
    demo_request [("type", VStr "public"); ("username", VStr "alice")] in
  register C request demo_start
    = (Raise (Exn IntegrityError (VStr "no token")),
       mkState 1 [Ev_check_permissions "register" VNone;
                  Ev_validate PublicRegisterSerializer (DATA request);
                  Ev_public_register {[ "username" := VStr "alice" ]};
                  Ev_make_auth_response_data "alice"]).
Proof.
  intros C request.
  apply (public_register_response_error_propagates C request demo_start 0
           "alice" 1 (Exn IntegrityError (VStr "no token")) 1);
    vm_compute; reflexivity.
Defined.

Lemma private_register_validation_error_witness :
  let request :=
    demo_request [("type", VStr "private"); ("existing", VBool true)] in
  register (demo true true) request demo_start
    = (Raise (Exn RequestValidationError
                (VDict [("username", VList [VStr "This field is required."])])),
       mkState 0
         [Ev_check_permissions "register" VNone;
          Ev_validate _serializer (DATA request);
          Ev_validate PrivateRegisterForExistingUserSerializer (DATA request)]).
Proof.
  intros request.
  apply (private_register_validation_error (demo true true) request
           demo_start 0 (VBool true)); vm_compute; reflexivity.
Defined.

Lemma private_register_coerces_existing_witness :
  let request :=
    demo_request [("type", VStr "private"); ("existing", VStr "false");
                  ("username", VStr "dave")] in
  register (demo true true) request demo_start
    = (Return (mkResponse {[ "username" := VStr "dave" ]} 201),
       mkState 1
         [Ev_check_permissions "register" VNone;
          Ev_validate _serializer (DATA request);
          Ev_validate PrivateRegisterForNewUserSerializer (DATA request);
          Ev_private_register_for_new_user {[ "username" := VStr "dave" ]};
          Ev_make_auth_response_data "dave"]) /\
  filter (fun ev => is_registration_service ev = true)
         (calls (register (demo true true) request) demo_start)
    = [Ev_private_register_for_new_user {[ "username" := VStr "dave" ]}].
Proof.
  intros request.
  destruct (private_register_coerces_existing (demo true true) request
              demo_start 0 (VStr "false")) as (Hrun & _ & Hsvc);
    [vm_compute; reflexivity ..|].
  split; [rewrite Hrun; vm_compute; reflexivity | exact Hsvc].
Defined.

Lemma login_failure_propagates_witness :
  let request :=
    demo_request [("type", VStr "normal"); ("username", VStr "bob");
                  ("password", VStr "wrong")] in
  create (demo true true) request demo_start
    = (Raise (Exn (OtherException "WrongArguments")
                (VStr "Username or password does not matches user.")),
       mkState 0
         [Ev_check_permissions "create" VNone;
          Ev_get_and_validate_user (VStr "bob") (VStr "wrong")]).
Proof.
  intros request.
  apply (login_failure_propagates (demo true true) request demo_start 0
           (Exn (OtherException "WrongArguments")
              (VStr "Username or password does not matches user.")) 0);
    vm_compute; reflexivity.
Defined.

Lemma github_login_failure_propagates_witness :
  let request :=
    demo_request [("type", VStr "github"); ("code", VStr "4f2a")] in
  let down :=
    demo_with demo_serializer_of demo_create_user demo_auth
      (fun code w => (Raise (Exn (OtherException "GitHubApiError") VNone), w)) in
  let nameless :=
    demo_with demo_serializer_of demo_create_user demo_auth
      (fun code w =>
         (Return (VStr "octocat@github.com",
                  mkUserInfo VNone VNone (VInt 583231) VNone), w)) in
  create down request demo_start
    = (Raise (Exn (OtherException "GitHubApiError") VNone),
       mkState 0 [Ev_check_permissions "create" VNone;
                  Ev_github_me (VStr "4f2a")]) /\
  create nameless request demo_start
    = (Raise (Exn (OtherException "TypeError") VNone),
       mkState 0
         [Ev_check_permissions "create" VNone;
          Ev_github_me (VStr "4f2a");
          Ev_github_register VNone (VStr "octocat@github.com") VNone
            (VInt 583231) VNone VNone]).
Proof.
  intros request down nameless. split.
  - destruct (github_login_failure_propagates down request demo_start 0)
      as [H _]; [vm_compute; reflexivity | vm_compute; reflexivity |].
    apply (H (Exn (OtherException "GitHubApiError") VNone) 0).
    vm_compute. reflexivity.
  - destruct (github_login_failure_propagates nameless request demo_start 0)
      as [_ H]; [vm_compute; reflexivity | vm_compute; reflexivity |].
    apply (H (VStr "octocat@github.com")
             (mkUserInfo VNone VNone (VInt 583231) VNone) 0
             (Exn (OtherException "TypeError") VNone) 0);
      vm_compute; reflexivity.
Defined.

Lemma only_public_register_reads_the_flag_witness :
  let request :=
    demo_request [("type", VStr "private"); ("existing", VBool false);
                  ("username", VStr "erin")] in
  register (with_PUBLIC_REGISTER_ENABLED (demo true true) false) request
    demo_start
    = register (demo true true) request demo_start.
Proof.
  intros request.
  destruct (only_public_register_reads_the_flag (demo true true) request
              demo_start false) as [H _].
  apply H. vm_compute. discriminate.
Defined.

Lemma type_must_be_a_string_witness :
  let request := demo_request [("type", VInt 1); ("username", VStr "bob")] in
  register (demo true true) request demo_start
    = (Raise (Exn BadRequest (VStr "invalid register type")),
       mkState 0 [Ev_check_permissions "register" VNone]) /\
  create (demo true true) request demo_start
    = (Raise (Exn BadRequest (VStr "invalid login type")),
       mkState 0 [Ev_check_permissions "create" VNone]).
Proof.
  intros request.
  destruct (type_must_be_a_string (demo true true) request demo_start)
    as [Hreg Hcre].
  - intros t. vm_compute. discriminate.
  - split; [apply (Hreg 0) | apply (Hcre 0)]; vm_compute; reflexivity.
Defined.

Lemma register_response_comes_from_a_service_witness :
  let request :=
    demo_request [("type", VStr "public"); ("username", VStr "alice")] in
  registered_through (demo true true) request demo_start
    (mkResponse {[ "username" := VStr "alice" ]} 201)
    (mkState 1
       [Ev_check_permissions "register" VNone;
        Ev_validate PublicRegisterSerializer (DATA request);
        Ev_public_register {[ "username" := VStr "alice" ]};
        Ev_make_auth_response_data "alice"]).
Proof.
  intros request.
  apply (register_response_comes_from_a_service (demo true true) request
           demo_start).
  vm_compute. reflexivity.
Defined.
